(** * catanbot: the win tally of a Catan chat group

    A shallow embedding of [catan.py]: the SQLite table [winners], the three
    functions that touch it ([increment_win_count], [get_leaderboard] and,
    through them, the handlers), and the two handlers [stats_command] and
    [message_handler].

    Conventions.
    - A Python [str] is a [string]; one [ascii] stands for one character.
    - A Python [int] is a [Z].
    - The database file is the content of its only table, [winners], a list
      of rows in rowid order (the order of insertion).  The model starts
      after [init_db] has created the table.
    - Code that touches the store or talks to the chat runs in a state and
      exception monad; a raised exception is a [Raise] result.
    - What a handler does to the outside (stdout, the log, the store, the
      chat) is recorded, in order, in a trace of events. *)

From Stdlib Require Import ZArith List String Ascii Bool Lia.
From Stdlib Require Import Permutation Sorted DecimalString.
From Stdlib Require Import DecimalPos DecimalZ.
Import ListNotations.

Open Scope string_scope.
Open Scope list_scope.
Open Scope Z_scope.

(* ------------------------------------------------------------------ *)
(** ** Python values and string primitives *)

Module Py.

(** What a call hands back to its caller: a function without a [return]
    statement gives [None]. *)
Inductive value : Type :=
| PyNone
| PyInt (n : Z).

(** The exceptions that the modelled statements can raise. *)
Inductive exn : Type :=
| IntegrityError (msg : string).

(** [str(n)] and the [{n}] of an f-string, for an int. *)
Definition str_of_int (n : Z) : string :=
  NilZero.string_of_int (Z.to_int n).

(** A slice bound [i] of a sequence of length [len]: a negative bound counts
    from the end, and every bound is clamped into [0, len]. *)
Definition slice_bound (len i : Z) : Z :=
  if i <? 0 then Z.max 0 (i + len) else Z.min i len.

(** [s[a:b]]: never raises; empty when the clamped bounds cross. *)
Definition slice (s : string) (a b : Z) : string :=
  let len := Z.of_nat (String.length s) in
  let lo := slice_bound len a in
  let hi := slice_bound len b in
  substring (Z.to_nat lo) (Z.to_nat (hi - lo)) s.

(** [c in chars] for a character and a str. *)
Fixpoint char_in (c : ascii) (chars : string) : bool :=
  match chars with
  | EmptyString => false
  | String d rest => Ascii.eqb c d || char_in c rest
  end.

(** [s.lstrip(chars)]: drops leading characters as long as they belong to
    [chars]. *)
Fixpoint lstrip (chars : string) (s : string) : string :=
  match s with
  | EmptyString => EmptyString
  | String c rest => if char_in c chars then lstrip chars rest else s
  end.

(** [sep.join(parts)]. *)
Definition join (sep : string) (parts : list string) : string :=
  String.concat sep parts.

(** The line feed, and the one-character str ["\n"]. *)
Definition line_feed : ascii := ascii_of_nat 10.

Definition newline : string := String line_feed EmptyString.

(** [s.split(sep)] for a separator of one character [c]. *)
Fixpoint split (c : ascii) (s : string) : list string :=
  match s with
  | EmptyString => [EmptyString]
  | String a rest =>
      if Ascii.eqb a c then EmptyString :: split c rest
      else match split c rest with
           | [] => [String a EmptyString]
           | part :: parts => String a part :: parts
           end
  end.

(** [s.startswith(prefix)]. *)
Definition startswith (s prefix : string) : bool := String.prefix prefix s.

End Py.

(* ------------------------------------------------------------------ *)
(** ** State and exception monad *)

Module Run.

Inductive result (A : Type) : Type :=
| Ok (a : A)
| Raise (e : Py.exn).
Arguments Ok {A} a.
Arguments Raise {A} e.

(** A computation over a state [S] that returns an [A] or raises. *)
Definition M (S A : Type) : Type := S -> result (A * S).

Definition ret {S A} (a : A) : M S A := fun s => Ok (a, s).

Definition bind {S A B} (m : M S A) (k : A -> M S B) : M S B :=
  fun s =>
    match m s with
    | Ok (a, s') => k a s'
    | Raise e => Raise e
    end.

End Run.

Import Run.

Declare Scope run_scope.
Delimit Scope run_scope with run.
Notation "x <- m ;; k" := (bind m (fun x => k))
  (at level 100, m at next level, right associativity) : run_scope.
Notation "m ;; k" := (bind m (fun _ => k))
  (at level 100, right associativity) : run_scope.

(* ------------------------------------------------------------------ *)
(** ** The [winners] table and the store functions *)

Module Store.

(** A row of [winners (username TEXT PRIMARY KEY, wins INTEGER NOT NULL)]. *)
Definition row : Type := string * Z.

Definition username (r : row) : string := fst r.
Definition wins (r : row) : Z := snd r.

(** The table, rows in rowid order. *)
Definition table : Type := list row.

(** An open connection: the file as last committed, and the table as the
    statements of the running transaction see it. *)
Record session : Type := mkSession { file : table; view : table }.

(** [sqlite3.connect(DATABASE_FILE)]. *)
Definition connect (db : table) : session := mkSession db db.

(** [conn.commit()]. *)
Definition commit : M session unit :=
  fun s => Ok (tt, mkSession (view s) (view s)).

(** [conn.close()]: what was not committed is lost. *)
Definition close (s : session) : table := file s.

(** The first row of [t] whose key is [u], as [fetchone()] delivers it:
    its [wins] column, or [None]. *)
Fixpoint stored_wins (t : table) (u : string) : option Z :=
  match t with
  | [] => None
  | r :: rest => if String.eqb (username r) u then Some (wins r)
                 else stored_wins rest u
  end.

(** [SELECT wins FROM winners WHERE username = ?] followed by [fetchone()]. *)
Definition select_wins (u : string) : M session (option Z) :=
  fun s => Ok (stored_wins (view s) u, s).

(** [INSERT INTO winners (username, wins) VALUES (?, ?)]: the new row gets
    the next rowid; the primary key refuses a second row for a username. *)
Definition insert_winner (u : string) (w : Z) : M session unit :=
  fun s =>
    match stored_wins (view s) u with
    | Some _ => Raise (Py.IntegrityError "UNIQUE constraint failed: winners.username")
    | None => Ok (tt, mkSession (file s) (view s ++ [(u, w)]))
    end.

(** The rows of [t] with [wins] set to [w] wherever the key is [u]. *)
Definition set_wins (w : Z) (u : string) (t : table) : table :=
  map (fun r => if String.eqb (username r) u then (username r, w) else r) t.

(** [UPDATE winners SET wins = ? WHERE username = ?]. *)
Definition update_wins (w : Z) (u : string) : M session unit :=
  fun s => Ok (tt, mkSession (file s) (set_wins w u (view s))).

(** Insertion of a row into a list sorted by [wins] descending: behind the
    rows with strictly more wins, in front of the first row with as many or
    fewer. *)
Fixpoint insert_desc (r : row) (l : list row) : list row :=
  match l with
  | [] => [r]
  | x :: rest => if wins r <? wins x then x :: insert_desc r rest
                 else r :: x :: rest
  end.

(** [ORDER BY wins DESC] over a scan of the table in rowid order.  The
    clause names no second key: rows with equal [wins] come out in the order
    of the scan. *)
Fixpoint order_by_wins_desc (t : table) : list row :=
  match t with
  | [] => []
  | r :: rest => insert_desc r (order_by_wins_desc rest)
  end.

(** [SELECT username, wins FROM winners ORDER BY wins DESC] followed by
    [fetchall()]. *)
Definition select_all_by_wins : M session (list row) :=
  fun s => Ok (order_by_wins_desc (view s), s).

(** Runs [body] on a fresh connection and closes it. *)
Definition with_connection {A} (body : M session A) : M table A :=
  fun db =>
    match body (connect db) with
    | Ok (a, s) => Ok (a, close s)
    | Raise e => Raise e
    end.

(** [increment_win_count(username)]. *)
Definition increment_win_count (u : string) : M table Py.value :=
  with_connection
    (found <- select_wins u ;;
     match found with
     | None => insert_winner u 1
     | Some w => let new_count := w + 1 in update_wins new_count u
     end ;;
     commit ;;
     ret Py.PyNone)%run.

(** [get_leaderboard()]. *)
Definition get_leaderboard : M table (list row) :=
  with_connection
    (rows <- select_all_by_wins ;;
     ret rows)%run.

(** The count of [u] as a reader of the table sees it: 0 when there is no
    row. *)
Definition count_of (t : table) (u : string) : Z :=
  match stored_wins t u with
  | Some w => w
  | None => 0
  end.

(** [increment_win_count(u)] called [n] times in a row. *)
Fixpoint increment_times (n : nat) (u : string) : M table unit :=
  match n with
  | O => ret tt
  | S k => (increment_win_count u ;; increment_times k u)%run
  end.

End Store.

(* ------------------------------------------------------------------ *)
(** ** Messages, events and the handlers *)

Module Bot.

Import Store.

(** One size of an attached photo. *)
Record photo_size : Type := mkPhoto {
  file_id : string;
  width : Z;
  height : Z
}.

(** An annotation of the caption: its kind and the span it covers. *)
Record entity : Type := mkEntity {
  type : string;
  offset : Z;
  length : Z
}.

(** The fields of [update.effective_message] that the handlers read:
    [photo] is the sequence of sizes of the attached photo, empty when there
    is none; [caption] is the str that the caption entities annotate (a
    message without a caption has no caption entities, so the handler never
    slices a missing caption). *)
Record message : Type := mkMessage {
  photo : list photo_size;
  caption : string;
  caption_entities : list entity
}.

(** What a handler does to the outside, one event per call. *)
Inductive event : Type :=
| PrintMessage (m : message)                       (* print(message) *)
| PrintEntity (e : entity)                         (* print(entity, entity.type) *)
| StoreIncrement (u : string)                      (* increment_win_count(u) *)
| StoreLeaderboard                                 (* get_leaderboard() *)
| LogInfo (text : string)                          (* logger.info(...) *)
| Reply (text : string) (parse_mode : option string). (* reply_text(...) *)

(** The store and everything done so far. *)
Record world : Type := mkWorld { db : table; trace : list event }.

Definition emit (e : event) : M world unit :=
  fun w => Ok (tt, mkWorld (db w) (trace w ++ [e])).

(** A call of a store function from a handler: the event, then the effect
    of the function on the store. *)
Definition call_store {A} (e : event) (f : M table A) : M world A :=
  fun w =>
    match f (db w) with
    | Ok (a, db') => Ok (a, mkWorld db' (trace w ++ [e]))
    | Raise x => Raise x
    end.

Definition is_store_access (e : event) : bool :=
  match e with
  | StoreIncrement _ | StoreLeaderboard => true
  | _ => false
  end.

Definition is_reply (e : event) : bool :=
  match e with
  | Reply _ _ => true
  | _ => false
  end.

(** The store calls and the replies of a trace, in order. *)
Definition store_accesses (t : list event) : list event :=
  filter is_store_access t.

Definition replies (t : list event) : list event := filter is_reply t.

(** The identities handed to [increment_win_count], in order. *)
Fixpoint increments (t : list event) : list string :=
  match t with
  | [] => []
  | StoreIncrement u :: rest => u :: increments rest
  | _ :: rest => increments rest
  end.

(** [start_command]. *)
Definition start_command : M world unit :=
  emit (Reply "Hello! I will track who wins Catan in this chat." None).

(** [f"@{username}: {wins}"] for one row of the leaderboard. *)
Definition leaderboard_line (r : row) : string :=
  ("@" ++ username r ++ ": " ++ Py.str_of_int (wins r))%string.

Definition no_wins_text : string := "No wins recorded yet!".

Definition leaderboard_header : string := "**Catan Wins Leaderboard**".

(** [stats_command]. *)
Definition stats_command : M world unit :=
  (leaderboard <- call_store StoreLeaderboard get_leaderboard ;;
   match leaderboard with
   | [] => emit (Reply no_wins_text None)
   | _ :: _ =>
       let leaderboard_lines := map leaderboard_line leaderboard in
       let leaderboard_text := Py.join Py.newline leaderboard_lines in
       emit (Reply (leaderboard_header ++ Py.newline ++ leaderboard_text)%string
                   (Some "Markdown"))
   end)%run.

(** [message.caption[entity.offset : entity.offset + entity.length]]. *)
Definition mention_text_of (m : message) (e : entity) : string :=
  Py.slice (caption m) (offset e) (offset e + length e).

(** The [for entity in message.caption_entities] loop of [message_handler]:
    the first entity of kind ["mention"] is counted and ends the loop. *)
Fixpoint scan_entities (m : message) (es : list entity) : M world unit :=
  match es with
  | [] => ret tt
  | e :: rest =>
      (emit (PrintEntity e) ;;
       if String.eqb (type e) "mention" then
         let mention_text := mention_text_of m e in
         let username := Py.lstrip "@" mention_text in
         (call_store (StoreIncrement username) (increment_win_count username) ;;
          emit (LogInfo ("Incremented win for user: " ++ username)%string) ;;
          emit (Reply ("Counted a Catan win for " ++ mention_text ++ "!")%string
                      None) ;;
          ret tt)
       else scan_entities m rest)%run
  end.

(** [message_handler]. *)
Definition message_handler (m : message) : M world unit :=
  (emit (PrintMessage m) ;;
   match photo m with
   | [] => ret tt
   | _ :: _ =>
       match caption_entities m with
       | [] => ret tt
       | _ :: _ => scan_entities m (caption_entities m)
       end
   end)%run.

(** The outcome of a handler on a store, with an empty trace to start. *)
Definition run_on {A} (h : M world A) (t : table) : result (A * world) :=
  h (mkWorld t []).

End Bot.

Import Store Bot.

(* ------------------------------------------------------------------ *)
(** ** Vocabulary of the specification *)

Module Spec.

(** An entity of kind "mention". *)
Definition is_mention (e : entity) : bool := String.eqb (type e) "mention".

(** The identity that [message_handler] derives from a mention entity. *)
Definition identity_of (m : message) (e : entity) : string :=
  Py.lstrip "@" (mention_text_of m e).

(** The span of [e] lies inside the caption of [m]. *)
Definition span_in_bounds (m : message) (e : entity) : bool :=
  (0 <=? offset e) && (0 <=? length e)
  && (offset e + length e <=? Z.of_nat (String.length (caption m))).

(** The identity does not begin with the sigil. *)
Definition no_sigil (u : string) : bool := negb (Py.startswith u "@").

(** As the specification words the extraction: one leading sigil, if there
    is one, is taken off. *)
Definition strip_single_sigil (s : string) : string :=
  match s with
  | String c rest => if Ascii.eqb c "@"%char then rest else s
  | EmptyString => s
  end.

(** [k] sigils in a row. *)
Fixpoint sigils (k : nat) : string :=
  match k with
  | O => EmptyString
  | S k' => String "@"%char (sigils k')
  end.

(** Leaderboard order on counts alone: [a] may stand before [b]. *)
Definition by_wins_desc (a b : row) : Prop := wins b <= wins a.

(** Leaderboard order as the specification words it: count descending,
    then identity ascending. *)
Definition by_wins_then_identity (a b : row) : Prop :=
  wins b < wins a \/
  (wins a = wins b /\ String.leb (username a) (username b) = true).

(** The rows of [l] whose count is [c], in the order of [l]. *)
Definition with_wins (c : Z) (l : list row) : list row :=
  filter (fun r => wins r =? c) l.

(** The rows of [t] that belong to other identities than [u], in order. *)
Definition others (u : string) (t : table) : list row :=
  filter (fun r => negb (String.eqb (username r) u)) t.

(** The trace of a run of [message_handler] that prints the entities [pre]
    and then counts the mention [e]. *)
Definition counted_trace (m : message) (pre : list entity) (e : entity)
  : list event :=
  PrintMessage m :: map PrintEntity pre ++
  [PrintEntity e;
   StoreIncrement (identity_of m e);
   LogInfo ("Incremented win for user: " ++ identity_of m e);
   Reply ("Counted a Catan win for " ++ mention_text_of m e ++ "!") None].

End Spec.

Import Spec.

(* ------------------------------------------------------------------ *)
(** ** Sample messages *)

Module Samples.

Definition a_photo : photo_size := mkPhoto "AgACAgQAAx0" 90 67.

Definition first_mention : entity := mkEntity "mention" 3 6.

(** A photo whose caption mentions two players, after a bold word. *)
Definition two_mentions : message :=
  mkMessage [a_photo] "gg @alice @bob"
            [mkEntity "bold" 0 2; first_mention; mkEntity "mention" 10 4].

Definition doubled_sigil : entity := mkEntity "mention" 3 5.

(** A photo whose mention text begins with two sigils. *)
Definition two_sigils : message :=
  mkMessage [a_photo] "gg @@bob" [mkEntity "bold" 0 2; doubled_sigil].

Definition beyond_caption : entity := mkEntity "mention" 100 4.

(** A photo whose first mention lies beyond the end of the caption and whose
    second mention is well inside it. *)
Definition malformed_first : message :=
  mkMessage [a_photo] "hi @bob" [beyond_caption; mkEntity "mention" 3 4].

(** The same caption and mentions as [two_mentions], without a photo. *)
Definition no_photo : message :=
  mkMessage [] "gg @alice @bob"
            [mkEntity "bold" 0 2; first_mention; mkEntity "mention" 10 4].

(** A photo with a caption but no mention in it. *)
Definition no_mention : message :=
  mkMessage [a_photo] "what a game" [mkEntity "bold" 0 4].

End Samples.

Import Samples.

(* ------------------------------------------------------------------ *)
(** ** Runs of calls, and the detector read as a function *)

Module Flow.

(** [increment_win_count] called for each identity of [us], in order. *)
Fixpoint increment_all (us : list string) : M table unit :=
  match us with
  | [] => ret tt
  | u :: rest => (increment_win_count u ;; increment_all rest)%run
  end.

(** How often [u] occurs in [us]. *)
Definition occurrences (u : string) (us : list string) : Z :=
  Z.of_nat (count_occ string_dec us u).

(** The entity at which the loop of [message_handler] stops: the first one
    of kind "mention". *)
Fixpoint find_mention (es : list entity) : option entity :=
  match es with
  | [] => None
  | e :: rest => if String.eqb (type e) "mention" then Some e
                 else find_mention rest
  end.

(** What [message_handler] counts for a message, read off its tests: nothing
    without a photo or without a mention, else the identity of the first
    mention. *)
Definition detect (m : message) : option string :=
  match photo m with
  | [] => None
  | _ :: _ =>
      match find_mention (caption_entities m) with
      | None => None
      | Some e => Some (identity_of m e)
      end
  end.

(** [message_handler] called for each message of [ms], in order. *)
Fixpoint handle_all (ms : list message) : M world unit :=
  match ms with
  | [] => ret tt
  | m :: rest => (message_handler m ;; handle_all rest)%run
  end.

(** The identities that [detect] finds in [ms], in order. *)
Fixpoint detected (ms : list message) : list string :=
  match ms with
  | [] => []
  | m :: rest =>
      match detect m with
      | Some u => u :: detected rest
      | None => detected rest
      end
  end.

End Flow.

Import Flow.

(* ------------------------------------------------------------------ *)
(** ** The database file before and after [init_db] *)

Module Startup.

(** The database file: [None] as long as it holds no table [winners]. *)
Definition database : Type := option table.

(** [init_db()]: [CREATE TABLE IF NOT EXISTS winners ...], committed.  A
    table that is there is left alone. *)
Definition init_db (d : database) : database :=
  match d with
  | None => Some []
  | Some t => Some t
  end.

(** How a store function ends on a database file. *)
Inductive outcome (A : Type) : Type :=
| Returned (a : A) (d : database)
| OperationalError (msg : string) (d : database)
| Raised (e : Py.exn).
Arguments Returned {A} a d.
Arguments OperationalError {A} msg d.
Arguments Raised {A} e.

(** A store function on a database file.  Its first statement names the
    table; without the table that statement raises, nothing was written and
    the file stays as it is. *)
Definition on_database {A} (f : M table A) (d : database) : outcome A :=
  match d with
  | None => OperationalError "no such table: winners" None
  | Some t =>
      match f t with
      | Ok (a, t') => Returned a (Some t')
      | Raise e => Raised e
      end
  end.

End Startup.

Import Startup.

(* ------------------------------------------------------------------ *)
(** ** The handlers on examples *)

Example ex_positive :
  run_on (message_handler
            (mkMessage [mkPhoto "f" 90 90] "Great game @alice!"
                       [mkEntity "mention" 11 6])) []
  = Ok (tt, mkWorld [("alice", 1)]
         [PrintMessage (mkMessage [mkPhoto "f" 90 90] "Great game @alice!"
                       [mkEntity "mention" 11 6]);
          PrintEntity (mkEntity "mention" 11 6);
          StoreIncrement "alice";
          LogInfo "Incremented win for user: alice";
          Reply "Counted a Catan win for @alice!" None]).
Proof. reflexivity. Qed.

Example ex_leaderboard :
  get_leaderboard [("A", 3); ("C", 5); ("B", 5)]
  = Ok ([("C", 5); ("B", 5); ("A", 3)], [("A", 3); ("C", 5); ("B", 5)]).
Proof. reflexivity. Qed.

(** Without [commit], closing the connection drops what a statement did. *)
Example ex_uncommitted_update_is_lost :
  with_connection (update_wins 7 "bob") [("bob", 2)] = Ok (tt, [("bob", 2)])
  /\ with_connection (update_wins 7 "bob" ;; commit)%run [("bob", 2)]
     = Ok (tt, [("bob", 7)]).
Proof. split; reflexivity. Qed.

(** The primary key refuses a second row for a username. *)
Example ex_insert_existing_key :
  with_connection (insert_winner "bob" 1 ;; commit)%run [("bob", 2)]
  = Raise (Py.IntegrityError "UNIQUE constraint failed: winners.username").
Proof. reflexivity. Qed.

Example ex_slice_negative : Py.slice "abcdef" (-3) 100 = "def".
Proof. reflexivity. Qed.

Example ex_slice_crossed : Py.slice "abcdef" 4 2 = "".
Proof. reflexivity. Qed.

(* ------------------------------------------------------------------ *)
(** ** Facts about the store *)

Section StoreFacts.

Lemma stored_wins_app (t1 t2 : table) (u : string) :
  stored_wins (t1 ++ t2) u =
  match stored_wins t1 u with
  | Some w => Some w
  | None => stored_wins t2 u
  end.
Proof.
  induction t1 as [|r t1 IH]; simpl; [reflexivity|].
  destruct (String.eqb (username r) u); [reflexivity | exact IH].
Qed.

Lemma stored_wins_set_same (w : Z) (u : string) (t : table) :
  stored_wins (set_wins w u t) u =
  match stored_wins t u with
  | Some _ => Some w
  | None => None
  end.
Proof.
  induction t as [|r t IH]; simpl; [reflexivity|].
  destruct (String.eqb (username r) u) eqn:E; simpl; rewrite E; auto.
Qed.

Lemma stored_wins_set_other (w : Z) (u v : string) (t : table) :
  u <> v -> stored_wins (set_wins w u t) v = stored_wins t v.
Proof.
  intros Huv. induction t as [|r t IH]; simpl; [reflexivity|].
  destruct (String.eqb (username r) u) eqn:E; simpl.
  - apply String.eqb_eq in E.
    destruct (String.eqb (username r) v) eqn:F.
    + apply String.eqb_eq in F. congruence.
    + exact IH.
  - rewrite IH. reflexivity.
Qed.

Lemma others_set_wins (w : Z) (u : string) (t : table) :
  others u (set_wins w u t) = others u t.
Proof.
  unfold others. induction t as [|r t IH]; simpl; [reflexivity|].
  destruct (String.eqb (username r) u) eqn:E; simpl; rewrite E; simpl;
    [exact IH | now rewrite IH].
Qed.

Lemma others_app (u : string) (t1 t2 : table) :
  others u (t1 ++ t2) = others u t1 ++ others u t2.
Proof. apply filter_app. Qed.

(** The statements of [increment_win_count] run to the end: the INSERT is
    only reached when the SELECT found no row, so the primary key never
    refuses it. *)
Lemma increment_win_count_run (u : string) (t : table) :
  increment_win_count u t =
  Ok (Py.PyNone,
      match stored_wins t u with
      | None => t ++ [(u, 1)]
      | Some w => set_wins (w + 1) u t
      end).
Proof.
  unfold increment_win_count, with_connection, bind, select_wins; simpl.
  destruct (stored_wins t u) as [w|] eqn:E.
  - reflexivity.
  - unfold insert_winner; simpl. rewrite E. reflexivity.
Qed.

Lemma stored_wins_incremented (u : string) (t t' : table) (v : Py.value) :
  increment_win_count u t = Ok (v, t') ->
  stored_wins t' u = Some (count_of t u + 1).
Proof.
  rewrite increment_win_count_run. intros H. injection H as _ <-.
  unfold count_of. destruct (stored_wins t u) as [w|] eqn:E.
  - rewrite stored_wins_set_same, E. reflexivity.
  - rewrite stored_wins_app, E. simpl. rewrite String.eqb_refl. reflexivity.
Qed.

Lemma increment_win_count_adds_one (u : string) (t : table) :
  exists t',
    increment_win_count u t = Ok (Py.PyNone, t')
    /\ stored_wins t' u = Some (count_of t u + 1)
    /\ count_of t' u = count_of t u + 1.
Proof.
  pose proof (stored_wins_incremented u t _ _ (increment_win_count_run u t))
    as H.
  eexists. split; [apply increment_win_count_run|].
  split; [exact H|]. unfold count_of at 1. now rewrite H.
Qed.

Lemma increment_times_run (n : nat) (u : string) (t : table) :
  exists t',
    increment_times n u t = Ok (tt, t')
    /\ count_of t' u = count_of t u + Z.of_nat n
    /\ (n <> O -> stored_wins t' u = Some (count_of t u + Z.of_nat n)).
Proof.
  revert t. induction n as [|n IH]; intros t.
  - exists t. split; [reflexivity|]. split; [simpl; lia | congruence].
  - destruct (increment_win_count_adds_one u t) as (t1 & E1 & S1 & C1).
    destruct (IH t1) as (t2 & E2 & C2 & S2).
    exists t2. simpl increment_times. unfold bind. rewrite E1.
    split; [exact E2|]. split; [lia|].
    intros _. destruct n as [|n'].
    + simpl in E2. injection E2 as <-. rewrite S1. reflexivity.
    + rewrite S2 by congruence. rewrite C1. f_equal. lia.
Qed.

(** The primary key: one row per username. *)
Lemma set_wins_keys (w : Z) (u : string) (t : table) :
  map username (set_wins w u t) = map username t.
Proof.
  induction t as [|r t IH]; simpl; [reflexivity|].
  rewrite IH. destruct (String.eqb (username r) u); reflexivity.
Qed.

Lemma stored_wins_none_not_in (t : table) (u : string) :
  stored_wins t u = None -> ~ In u (map username t).
Proof.
  induction t as [|r t IH]; simpl; [tauto|].
  destruct (String.eqb (username r) u) eqn:E; [discriminate|].
  apply String.eqb_neq in E. intros H [F|F]; [congruence | now apply IH].
Qed.

Lemma increment_keeps_primary_key (u : string) (t t' : table) (v : Py.value) :
  NoDup (map username t) ->
  increment_win_count u t = Ok (v, t') ->
  NoDup (map username t').
Proof.
  intros Hnd. rewrite increment_win_count_run. intros H. injection H as _ <-.
  destruct (stored_wins t u) as [w|] eqn:E.
  - now rewrite set_wins_keys.
  - rewrite map_app. simpl.
    apply (Permutation_NoDup (l := u :: map username t)).
    + apply Permutation_cons_append.
    + constructor; [now apply stored_wins_none_not_in | exact Hnd].
Qed.

End StoreFacts.

(* ------------------------------------------------------------------ *)
(** ** Facts about the leaderboard order *)

Section LeaderboardFacts.

Lemma insert_desc_perm (r : row) (l : list row) :
  Permutation (insert_desc r l) (r :: l).
Proof.
  induction l as [|x l IH]; simpl; [apply Permutation_refl|].
  destruct (wins r <? wins x).
  - transitivity (x :: r :: l); [now constructor | apply perm_swap].
  - apply Permutation_refl.
Qed.

Lemma order_by_wins_desc_perm (t : table) :
  Permutation (order_by_wins_desc t) t.
Proof.
  induction t as [|r t IH]; simpl; [constructor|].
  transitivity (r :: order_by_wins_desc t);
    [apply insert_desc_perm | now constructor].
Qed.

Lemma insert_desc_sorted (r : row) (l : list row) :
  StronglySorted by_wins_desc l ->
  StronglySorted by_wins_desc (insert_desc r l).
Proof.
  induction 1 as [|x l Hs IH Hx]; simpl.
  - constructor; constructor.
  - destruct (wins r <? wins x) eqn:E.
    + apply Z.ltb_lt in E. constructor; [exact IH|].
      apply (Permutation_Forall (x := r :: l)).
      * symmetry. apply insert_desc_perm.
      * constructor; [unfold by_wins_desc; lia | exact Hx].
    + apply Z.ltb_ge in E. constructor.
      * now constructor.
      * constructor; [exact E|].
        revert Hx. apply Forall_impl. unfold by_wins_desc. intros a. lia.
Qed.

Lemma order_by_wins_desc_sorted (t : table) :
  StronglySorted by_wins_desc (order_by_wins_desc t).
Proof.
  induction t as [|r t IH]; simpl;
    [constructor | now apply insert_desc_sorted].
Qed.

(** A row only moves behind rows with strictly more wins: within one count
    the order of the scan is kept. *)
Lemma insert_desc_with_wins (c : Z) (r : row) (l : list row) :
  with_wins c (insert_desc r l) = with_wins c (r :: l).
Proof.
  unfold with_wins. induction l as [|x l IH]; [reflexivity|].
  simpl insert_desc. destruct (wins r <? wins x) eqn:E; [|reflexivity].
  apply Z.ltb_lt in E. simpl in *. rewrite IH.
  destruct (wins r =? c) eqn:Er; destruct (wins x =? c) eqn:Ex;
    try reflexivity.
  apply Z.eqb_eq in Er, Ex. lia.
Qed.

Lemma order_by_wins_desc_with_wins (c : Z) (t : table) :
  with_wins c (order_by_wins_desc t) = with_wins c t.
Proof.
  induction t as [|r t IH]; [reflexivity|].
  simpl order_by_wins_desc. rewrite insert_desc_with_wins.
  unfold with_wins in *. simpl. now rewrite IH.
Qed.

Lemma get_leaderboard_run (t : table) :
  get_leaderboard t = Ok (order_by_wins_desc t, t).
Proof. reflexivity. Qed.

End LeaderboardFacts.

(* ------------------------------------------------------------------ *)
(** ** Claims about the store *)

(** C1, as stated, fails: after a first win of bob and then a first win of
    alice, the leaderboard lists bob before alice although both have one
    win, so equal counts are not ordered by identity ascending. *)
Lemma C1_ties_not_by_identity :
  (increment_win_count "bob" ;; increment_win_count "alice" ;;
   get_leaderboard)%run []
  = Ok ([("bob", 1); ("alice", 1)], [("bob", 1); ("alice", 1)])
  /\ ~ StronglySorted by_wins_then_identity [("bob", 1); ("alice", 1)].
Proof.
  split; [reflexivity|].
  intros H. inversion H as [|a l _ Hall]; subst.
  inversion Hall as [|b l' Hb _]; subst.
  destruct Hb as [Hb | [_ Hb]]; [cbv in Hb; discriminate Hb | discriminate Hb].
Qed.

(** C1, amended: [get_leaderboard] returns every stored row, sorted by count
    descending; rows with equal counts keep the row order of the table; the
    store is left as it was, so a second call returns the same sequence. *)
Theorem C1_get_leaderboard_sorted_desc (t : table) :
  exists rows,
    get_leaderboard t = Ok (rows, t)
    /\ Permutation rows t
    /\ StronglySorted by_wins_desc rows
    /\ (forall c, with_wins c rows = with_wins c t)
    /\ (first <- get_leaderboard ;; second <- get_leaderboard ;;
        ret (first, second))%run t = Ok ((rows, rows), t).
Proof.
  exists (order_by_wins_desc t). repeat split.
  - apply order_by_wins_desc_perm.
  - apply order_by_wins_desc_sorted.
  - intros c. apply order_by_wins_desc_with_wins.
Qed.

(** C2, as stated, fails: [increment_win_count] hands [None] back to its
    caller, not the new count. *)
Lemma C2_increment_returns_none :
  increment_win_count "alice" [] = Ok (Py.PyNone, [("alice", 1)])
  /\ ~ (exists t', increment_win_count "alice" [] = Ok (Py.PyInt 1, t')).
Proof.
  split; [reflexivity|]. intros [t' H]. discriminate H.
Qed.

(** C2, amended: for every identity, [increment_win_count] reads the current
    count (0 when there is no row), adds 1 and commits the new value; it
    returns [None]. *)
Theorem C2_increment_adds_one (u : string) (t : table) :
  exists t',
    increment_win_count u t = Ok (Py.PyNone, t')
    /\ stored_wins t' u = Some (count_of t u + 1)
    /\ count_of t' u = count_of t u + 1.
Proof. apply increment_win_count_adds_one. Qed.

(** C6: for an identity without a row, [n] calls of [increment_win_count]
    ([n] at least 1) leave exactly [n] as its stored count; the first call
    creates the row, with count 1. *)
Theorem C6_increment_n_times (x : string) (t : table) (n : nat) :
  stored_wins t x = None ->
  (1 <= n)%nat ->
  exists t',
    increment_times n x t = Ok (tt, t')
    /\ stored_wins t' x = Some (Z.of_nat n)
    /\ increment_win_count x t = Ok (Py.PyNone, t ++ [(x, 1)]).
Proof.
  intros Habsent Hn.
  destruct (increment_times_run n x t) as (t' & Hrun & _ & Hstored).
  exists t'. split; [exact Hrun|]. split.
  - rewrite Hstored by lia. unfold count_of. rewrite Habsent. reflexivity.
  - rewrite increment_win_count_run, Habsent. reflexivity.
Qed.

Lemma C6_increment_n_times_witness :
  stored_wins [("bob", 2)] "alice" = None
  /\ (1 <= 3)%nat
  /\ exists t',
       increment_times 3 "alice" [("bob", 2)] = Ok (tt, t')
       /\ stored_wins t' "alice" = Some 3
       /\ increment_win_count "alice" [("bob", 2)]
          = Ok (Py.PyNone, [("bob", 2)] ++ [("alice", 1)]).
Proof.
  split; [reflexivity|]. split; [lia|].
  apply (C6_increment_n_times "alice" [("bob", 2)] 3); [reflexivity | lia].
Defined.

(** C7: for distinct identities [x] and [y], [increment_win_count x] leaves
    the stored count of [y] as it was; the rows of all other identities are
    the same rows, in the same order: none is created, deleted or changed. *)
Theorem C7_increment_isolated (x y : string) (t : table) :
  x <> y ->
  exists t',
    increment_win_count x t = Ok (Py.PyNone, t')
    /\ stored_wins t' y = stored_wins t y
    /\ count_of t' y = count_of t y
    /\ others x t' = others x t.
Proof.
  intros Hxy. eexists. split; [apply increment_win_count_run|].
  assert (Hy : stored_wins
                 match stored_wins t x with
                 | Some w => set_wins (w + 1) x t
                 | None => t ++ [(x, 1)]
                 end y = stored_wins t y).
  { destruct (stored_wins t x) as [w|].
    - now apply stored_wins_set_other.
    - rewrite stored_wins_app. simpl.
      destruct (String.eqb_spec x y) as [E|_]; [contradiction|].
      now destruct (stored_wins t y). }
  split; [exact Hy|]. split; [unfold count_of; now rewrite Hy|].
  destruct (stored_wins t x) as [w|].
  - apply others_set_wins.
  - rewrite others_app. unfold others at 2. simpl.
    rewrite String.eqb_refl. simpl. apply app_nil_r.
Qed.

Lemma C7_increment_isolated_witness :
  "alice" <> "bob"
  /\ exists t',
       increment_win_count "alice" [("bob", 2); ("alice", 1)]
       = Ok (Py.PyNone, t')
       /\ stored_wins t' "bob" = stored_wins [("bob", 2); ("alice", 1)] "bob"
       /\ count_of t' "bob" = count_of [("bob", 2); ("alice", 1)] "bob"
       /\ others "alice" t' = others "alice" [("bob", 2); ("alice", 1)].
Proof.
  assert (H : "alice" <> "bob") by (intros E; discriminate E).
  split; [exact H|].
  apply (C7_increment_isolated "alice" "bob" [("bob", 2); ("alice", 1)] H).
Defined.

(* ------------------------------------------------------------------ *)
(** ** Facts about slices and [lstrip] *)

Section StringFacts.

Lemma substring_prefix (s : string) :
  forall m, exists post, s = (substring 0 m s ++ post)%string.
Proof.
  induction s as [|c s IH]; intros m.
  - exists EmptyString. now destruct m.
  - destruct m as [|m].
    + exists (String c s). reflexivity.
    + destruct (IH m) as (post & E). exists post. simpl. now rewrite <- E.
Qed.

Lemma substring_within (s : string) :
  forall n m, exists pre post, s = (pre ++ substring n m s ++ post)%string.
Proof.
  induction s as [|c s IH]; intros n m.
  - exists EmptyString, EmptyString. now destruct n, m.
  - destruct n as [|n].
    + destruct (substring_prefix (String c s) m) as (post & E).
      exists EmptyString, post. exact E.
    + destruct (IH n m) as (pre & post & E).
      exists (String c pre), post. simpl. now rewrite <- E.
Qed.

(** A slice is a piece of the str it is taken from, whatever the bounds. *)
Lemma slice_within (s : string) (a b : Z) :
  exists pre post, s = (pre ++ Py.slice s a b ++ post)%string.
Proof. unfold Py.slice. apply substring_within. Qed.

Lemma substring_length (s : string) :
  forall n m, (n + m <= String.length s)%nat ->
              String.length (substring n m s) = m.
Proof.
  induction s as [|c s IH]; intros n m H; simpl in H.
  - assert (n = O /\ m = O) as [-> ->] by lia. reflexivity.
  - destruct n as [|n]; simpl.
    + destruct m as [|m]; [reflexivity|]. simpl. f_equal. apply IH. lia.
    + apply IH. lia.
Qed.

(** Inside the caption, the slice is the span itself. *)
Lemma slice_in_bounds (s : string) (a n : Z) :
  0 <= a -> 0 <= n -> a + n <= Z.of_nat (String.length s) ->
  Py.slice s a (a + n) = substring (Z.to_nat a) (Z.to_nat n) s
  /\ Z.of_nat (String.length (Py.slice s a (a + n))) = n.
Proof.
  intros Ha Hn Hlen. unfold Py.slice, Py.slice_bound.
  destruct (a <? 0) eqn:Ea; [apply Z.ltb_lt in Ea; lia|].
  destruct (a + n <? 0) eqn:Eb; [apply Z.ltb_lt in Eb; lia|].
  rewrite !Z.min_l by lia.
  replace (a + n - a) with n by lia. split; [reflexivity|].
  rewrite substring_length by lia. lia.
Qed.

Lemma char_in_sigil (c : ascii) :
  Py.char_in c "@" = Ascii.eqb c "@"%char.
Proof. simpl. apply orb_false_r. Qed.

Lemma startswith_sigil (c : ascii) (s : string) :
  Py.startswith (String c s) "@" = Ascii.eqb c "@"%char.
Proof.
  unfold Py.startswith.
  change (String.prefix "@" (String c s))
    with (if ascii_dec "@"%char c then String.prefix "" s else false).
  destruct (ascii_dec "@"%char c) as [<-|N].
  - now destruct s.
  - symmetry. apply Ascii.eqb_neq. congruence.
Qed.

(** [lstrip("@")] takes off the whole run of leading sigils. *)
Lemma lstrip_sigils (s : string) :
  exists k, s = (sigils k ++ Py.lstrip "@" s)%string
            /\ no_sigil (Py.lstrip "@" s) = true.
Proof.
  induction s as [|c s (k & E & N)].
  - exists O. split; reflexivity.
  - change (Py.lstrip "@" (String c s))
      with (if Py.char_in c "@" then Py.lstrip "@" s else String c s).
    rewrite char_in_sigil.
    destruct (Ascii.eqb c "@"%char) eqn:Ec.
    + apply Ascii.eqb_eq in Ec. subst c.
      exists (S k). split; [simpl; now rewrite <- E | exact N].
    + exists O. split; [reflexivity|].
      unfold no_sigil. now rewrite startswith_sigil, Ec.
Qed.

Lemma lstrip_no_sigil (s : string) : no_sigil (Py.lstrip "@" s) = true.
Proof. destruct (lstrip_sigils s) as (k & _ & N). exact N. Qed.

End StringFacts.

(* ------------------------------------------------------------------ *)
(** ** Facts about the handlers *)

Section HandlerFacts.

Lemma increments_app (t1 t2 : list event) :
  increments (t1 ++ t2) = increments t1 ++ increments t2.
Proof.
  induction t1 as [|e t1 IH]; [reflexivity|].
  destruct e; simpl; rewrite IH; reflexivity.
Qed.

Lemma store_accesses_app (t1 t2 : list event) :
  store_accesses (t1 ++ t2) = store_accesses t1 ++ store_accesses t2.
Proof. apply filter_app. Qed.

Lemma replies_app (t1 t2 : list event) :
  replies (t1 ++ t2) = replies t1 ++ replies t2.
Proof. apply filter_app. Qed.

(** Printing an entity is neither a store access nor a reply. *)
Lemma prints_quiet (es : list entity) :
  increments (map PrintEntity es) = []
  /\ store_accesses (map PrintEntity es) = []
  /\ replies (map PrintEntity es) = [].
Proof.
  induction es as [|e es (I & S & R)]; [now repeat split|].
  repeat split; simpl; assumption.
Qed.

(** The loop over entities none of which is a mention: each is printed,
    nothing else happens. *)
Lemma scan_entities_no_mention (m : message) (es : list entity) :
  Forall (fun e => is_mention e = false) es ->
  forall w, scan_entities m es w
            = Ok (tt, mkWorld (db w) (trace w ++ map PrintEntity es)).
Proof.
  induction 1 as [|e es He _ IH]; intros w.
  - simpl. unfold ret. rewrite app_nil_r. now destruct w.
  - simpl. unfold bind at 1, emit at 1. unfold is_mention in He.
    rewrite He, IH. simpl. now rewrite <- app_assoc.
Qed.

(** The loop up to the first mention: the entities before it are printed,
    the mention is printed and counted, the loop ends. *)
Lemma scan_entities_first_mention (m : message) (e : entity)
      (rest : list entity) (pre : list entity) :
  Forall (fun e => is_mention e = false) pre ->
  is_mention e = true ->
  forall w,
    exists db',
      increment_win_count (identity_of m e) (db w) = Ok (Py.PyNone, db')
      /\ scan_entities m (pre ++ e :: rest) w
         = Ok (tt, mkWorld db'
                 (trace w ++ map PrintEntity pre ++
                  [PrintEntity e;
                   StoreIncrement (identity_of m e);
                   LogInfo ("Incremented win for user: " ++ identity_of m e);
                   Reply ("Counted a Catan win for " ++ mention_text_of m e
                          ++ "!") None])).
Proof.
  intros Hpre He. induction Hpre as [|p pre Hp _ IH]; intros w.
  - destruct (increment_win_count_adds_one (identity_of m e) (db w))
      as (db' & Hinc & _).
    exists db'. split; [exact Hinc|].
    simpl. unfold bind at 1, emit at 1. unfold is_mention in He. rewrite He.
    unfold bind, call_store, emit, ret. simpl.
    fold (identity_of m e). rewrite Hinc. simpl.
    now rewrite <- !app_assoc.
  - destruct (IH (mkWorld (db w) (trace w ++ [PrintEntity p])))
      as (db' & Hinc & Hscan).
    exists db'. split; [exact Hinc|].
    simpl. unfold bind at 1, emit at 1. unfold is_mention in Hp.
    rewrite Hp. simpl in Hscan. rewrite Hscan. simpl.
    now rewrite <- app_assoc.
Qed.

(** [message_handler] on a message without a photo. *)
Lemma message_handler_no_photo (m : message) (w : world) :
  photo m = [] ->
  message_handler m w = Ok (tt, mkWorld (db w) (trace w ++ [PrintMessage m])).
Proof.
  intros Hp. unfold message_handler, bind, emit. rewrite Hp. reflexivity.
Qed.

(** [message_handler] on a message with a photo runs the loop; the test on
    the entity list changes nothing, the loop over an empty list being
    empty. *)
Lemma message_handler_photo (m : message) (w : world) :
  photo m <> [] ->
  message_handler m w
  = scan_entities m (caption_entities m)
      (mkWorld (db w) (trace w ++ [PrintMessage m])).
Proof.
  intros Hp. unfold message_handler, bind, emit.
  destruct (photo m) as [|p ps]; [contradiction|].
  destruct (caption_entities m); reflexivity.
Qed.

End HandlerFacts.

Section DetectionFacts.

Variable m : message.
Variables (pre : list entity) (e : entity) (rest : list entity).
Hypothesis Hphoto : photo m <> [].
Hypothesis Hentities : caption_entities m = pre ++ e :: rest.
Hypothesis Hpre : Forall (fun e' => is_mention e' = false) pre.
Hypothesis He : is_mention e = true.

Lemma counted_trace_events :
  increments (counted_trace m pre e) = [identity_of m e]
  /\ store_accesses (counted_trace m pre e)
     = [StoreIncrement (identity_of m e)]
  /\ replies (counted_trace m pre e)
     = [Reply ("Counted a Catan win for " ++ mention_text_of m e ++ "!") None].
Proof.
  destruct (prints_quiet pre) as (I & S & R). unfold counted_trace.
  repeat split.
  - change (increments (PrintMessage m :: ?l)) with (increments l).
    simpl. rewrite increments_app, I. reflexivity.
  - unfold store_accesses in *. simpl. rewrite filter_app, S. reflexivity.
  - unfold replies in *. simpl. rewrite filter_app, R. reflexivity.
Qed.

(** A message with a photo whose first mention is [e]: one call of
    [increment_win_count], for the identity of [e]. *)
Lemma message_handler_first_mention (t : table) :
  exists db',
    increment_win_count (identity_of m e) t = Ok (Py.PyNone, db')
    /\ run_on (message_handler m) t
       = Ok (tt, mkWorld db' (counted_trace m pre e)).
Proof.
  unfold run_on. rewrite (message_handler_photo m _ Hphoto), Hentities.
  destruct (scan_entities_first_mention m e rest pre Hpre He
              (mkWorld t ([] ++ [PrintMessage m]))) as (db' & Hinc & Hscan).
  exists db'. split; [exact Hinc|]. exact Hscan.
Qed.

End DetectionFacts.

(** Every entity list either has no mention or splits at its first one. *)
Lemma first_mention_split (es : list entity) :
  Forall (fun e => is_mention e = false) es
  \/ exists pre e rest,
       es = pre ++ e :: rest
       /\ Forall (fun e' => is_mention e' = false) pre
       /\ is_mention e = true.
Proof.
  induction es as [|x es [IH | (pre & e & rest & E & Hpre & He)]].
  - left. constructor.
  - destruct (is_mention x) eqn:Ex.
    + right. exists [], x, es. repeat split; [constructor | exact Ex].
    + left. now constructor.
  - destruct (is_mention x) eqn:Ex.
    + right. exists [], x, es. repeat split; [constructor | exact Ex].
    + right. exists (x :: pre), e, rest. subst es.
      repeat split; [now constructor | exact He].
Qed.

(** A message on which nothing is detected: only printing happens. *)
Lemma message_handler_no_detection (m : message) (t : table) :
  photo m = [] \/ Forall (fun e => is_mention e = false) (caption_entities m) ->
  exists tr,
    run_on (message_handler m) t = Ok (tt, mkWorld t tr)
    /\ increments tr = [] /\ store_accesses tr = [] /\ replies tr = [].
Proof.
  intros H. unfold run_on.
  destruct (photo m) as [|p ps] eqn:Hp.
  - rewrite message_handler_no_photo by exact Hp.
    eexists. split; [reflexivity|]. now repeat split.
  - destruct H as [H|H]; [discriminate H|].
    rewrite message_handler_photo by (rewrite Hp; discriminate).
    rewrite scan_entities_no_mention by exact H.
    eexists. split; [reflexivity|].
    destruct (prints_quiet (caption_entities m)) as (I & S & R).
    simpl. repeat split; assumption.
Qed.

(** The keys of the table after an increment: the same, or one more. *)
Lemma increment_keys (u : string) (t t' : table) (v : Py.value) :
  increment_win_count u t = Ok (v, t') ->
  map username t' = map username t \/ map username t' = map username t ++ [u].
Proof.
  rewrite increment_win_count_run. intros H. injection H as _ <-.
  destruct (stored_wins t u).
  - left. apply set_wins_keys.
  - right. now rewrite map_app.
Qed.

(* ------------------------------------------------------------------ *)
(** ** Claims about the handlers *)

(** C3, as stated, fails: of a mention text that begins with two sigils the
    handler keeps none, where taking off a single one would keep one. *)
Lemma C3_two_sigils_both_stripped :
  run_on (message_handler two_sigils) []
  = Ok (tt, mkWorld [("bob", 1)]
              (counted_trace two_sigils [mkEntity "bold" 0 2] doubled_sigil))
  /\ increments (counted_trace two_sigils [mkEntity "bold" 0 2] doubled_sigil)
     = ["bob"]
  /\ mention_text_of two_sigils doubled_sigil = "@@bob"
  /\ strip_single_sigil "@@bob" = "@bob"
  /\ identity_of two_sigils doubled_sigil
     <> strip_single_sigil (mention_text_of two_sigils doubled_sigil).
Proof.
  repeat split. intros H. discriminate H.
Qed.

(** C3, amended: the handler takes the mention text from the caption at
    [offset, offset+length), takes off every leading sigil, and hands the
    remainder, which begins with no sigil, to the store as the identity. *)
Theorem C3_strips_every_sigil (m : message) (pre : list entity) (e : entity)
        (rest : list entity) (t : table) :
  photo m <> [] ->
  caption_entities m = pre ++ e :: rest ->
  Forall (fun e' => is_mention e' = false) pre ->
  is_mention e = true ->
  exists w k,
    run_on (message_handler m) t = Ok (tt, w)
    /\ increments (trace w) = [identity_of m e]
    /\ mention_text_of m e
       = Py.slice (caption m) (offset e) (offset e + length e)
    /\ mention_text_of m e = (sigils k ++ identity_of m e)%string
    /\ no_sigil (identity_of m e) = true.
Proof.
  intros Hphoto Hent Hpre He.
  destruct (message_handler_first_mention m pre e rest Hphoto Hent Hpre He t)
    as (db' & _ & Hrun).
  destruct (lstrip_sigils (mention_text_of m e)) as (k & Hk & Hno).
  exists (mkWorld db' (counted_trace m pre e)), k.
  split; [exact Hrun|]. split; [apply counted_trace_events|].
  split; [reflexivity|]. split; [exact Hk | exact Hno].
Qed.

Lemma C3_strips_every_sigil_witness :
  photo two_sigils <> []
  /\ caption_entities two_sigils = [mkEntity "bold" 0 2] ++ doubled_sigil :: []
  /\ Forall (fun e' => is_mention e' = false) [mkEntity "bold" 0 2]
  /\ is_mention doubled_sigil = true
  /\ exists w k,
       run_on (message_handler two_sigils) [] = Ok (tt, w)
       /\ increments (trace w) = [identity_of two_sigils doubled_sigil]
       /\ mention_text_of two_sigils doubled_sigil
          = Py.slice (caption two_sigils) (offset doubled_sigil)
                     (offset doubled_sigil + length doubled_sigil)
       /\ mention_text_of two_sigils doubled_sigil
          = (sigils k ++ identity_of two_sigils doubled_sigil)%string
       /\ no_sigil (identity_of two_sigils doubled_sigil) = true.
Proof.
  assert (Hp : photo two_sigils <> []) by (intros E; discriminate E).
  assert (Hpre : Forall (fun e' => is_mention e' = false)
                        [mkEntity "bold" 0 2]) by (repeat constructor).
  split; [exact Hp|]. split; [reflexivity|]. split; [exact Hpre|].
  split; [reflexivity|].
  apply (C3_strips_every_sigil two_sigils [mkEntity "bold" 0 2] doubled_sigil
           [] [] Hp eq_refl Hpre eq_refl).
Defined.

(** C4, as stated, fails: a first mention whose span lies beyond the caption
    is not skipped.  The handler counts a win for the empty identity and
    stops; the well-formed mention of bob behind it is never reached. *)
Lemma C4_malformed_mention_not_skipped :
  span_in_bounds malformed_first beyond_caption = false
  /\ run_on (message_handler malformed_first) []
     = Ok (tt, mkWorld [("", 1)]
                 (counted_trace malformed_first [] beyond_caption))
  /\ increments (counted_trace malformed_first [] beyond_caption) = [""]
  /\ ~ (exists w, run_on (message_handler malformed_first) [] = Ok (tt, w)
                  /\ increments (trace w) = ["bob"]).
Proof.
  repeat split. intros (w & Hrun & Hinc).
  injection Hrun as <-. discriminate Hinc.
Qed.

(** C4, amended: a span that reaches out of the caption never makes the
    handler fail or read outside the caption, because a slice is clamped to
    the str; but a mention with such a span is not skipped: when it is the
    first mention, the clamped slice is its mention text, the identity
    derived from it is counted and replied to, and the loop ends. *)
Theorem C4_malformed_mention_clamped (m : message) (pre : list entity)
        (e : entity) (rest : list entity) (t : table) :
  photo m <> [] ->
  caption_entities m = pre ++ e :: rest ->
  Forall (fun e' => is_mention e' = false) pre ->
  is_mention e = true ->
  span_in_bounds m e = false ->
  exists w before behind,
    run_on (message_handler m) t = Ok (tt, w)
    /\ caption m = (before ++ mention_text_of m e ++ behind)%string
    /\ increments (trace w) = [Py.lstrip "@" (mention_text_of m e)]
    /\ replies (trace w)
       = [Reply ("Counted a Catan win for " ++ mention_text_of m e ++ "!")
                None].
Proof.
  intros Hphoto Hent Hpre He _.
  destruct (message_handler_first_mention m pre e rest Hphoto Hent Hpre He t)
    as (db' & _ & Hrun).
  destruct (slice_within (caption m) (offset e) (offset e + length e))
    as (before & behind & Hcap).
  exists (mkWorld db' (counted_trace m pre e)), before, behind.
  split; [exact Hrun|]. split; [exact Hcap|].
  destruct (counted_trace_events m pre e) as (I & _ & R).
  split; [exact I | exact R].
Qed.

Lemma C4_malformed_mention_clamped_witness :
  photo malformed_first <> []
  /\ caption_entities malformed_first
     = [] ++ beyond_caption :: [mkEntity "mention" 3 4]
  /\ Forall (fun e' => is_mention e' = false) []
  /\ is_mention beyond_caption = true
  /\ span_in_bounds malformed_first beyond_caption = false
  /\ exists w before behind,
       run_on (message_handler malformed_first) [("bob", 4)] = Ok (tt, w)
       /\ caption malformed_first
          = (before ++ mention_text_of malformed_first beyond_caption
             ++ behind)%string
       /\ increments (trace w)
          = [Py.lstrip "@" (mention_text_of malformed_first beyond_caption)]
       /\ replies (trace w)
          = [Reply ("Counted a Catan win for "
                    ++ mention_text_of malformed_first beyond_caption ++ "!")
                   None].
Proof.
  assert (Hp : photo malformed_first <> []) by (intros E; discriminate E).
  split; [exact Hp|]. split; [reflexivity|]. split; [constructor|].
  split; [reflexivity|]. split; [reflexivity|].
  apply (C4_malformed_mention_clamped malformed_first [] beyond_caption
           [mkEntity "mention" 3 4] [("bob", 4)] Hp eq_refl
           (Forall_nil _) eq_refl eq_refl).
Defined.

(** C5: in a message with a photo only the first mention, in the order of
    the entities and passing over other kinds, is honoured, whatever comes
    behind it: one identity is extracted, [increment_win_count] is called
    once, for that identity, which gains exactly one win, every other count
    stays, and one reply is sent. *)
Theorem C5_first_mention_only (m : message) (pre : list entity) (e : entity)
        (rest : list entity) (t : table) :
  photo m <> [] ->
  caption_entities m = pre ++ e :: rest ->
  Forall (fun e' => is_mention e' = false) pre ->
  is_mention e = true ->
  exists w,
    run_on (message_handler m) t = Ok (tt, w)
    /\ increments (trace w) = [identity_of m e]
    /\ store_accesses (trace w) = [StoreIncrement (identity_of m e)]
    /\ increment_win_count (identity_of m e) t = Ok (Py.PyNone, db w)
    /\ count_of (db w) (identity_of m e) = count_of t (identity_of m e) + 1
    /\ (forall y, y <> identity_of m e -> count_of (db w) y = count_of t y)
    /\ replies (trace w)
       = [Reply ("Counted a Catan win for " ++ mention_text_of m e ++ "!")
                None].
Proof.
  intros Hphoto Hent Hpre He.
  destruct (message_handler_first_mention m pre e rest Hphoto Hent Hpre He t)
    as (db' & Hinc & Hrun).
  destruct (counted_trace_events m pre e) as (I & S & R).
  exists (mkWorld db' (counted_trace m pre e)).
  split; [exact Hrun|]. split; [exact I|]. split; [exact S|].
  split; [exact Hinc|]. simpl db. split; [|split; [|exact R]].
  - destruct (increment_win_count_adds_one (identity_of m e) t)
      as (t' & Hinc' & _ & Hcount).
    rewrite Hinc in Hinc'. injection Hinc' as ->. exact Hcount.
  - intros y Hy. unfold count_of.
    rewrite increment_win_count_run in Hinc. injection Hinc as <-.
    destruct (stored_wins t (identity_of m e)) as [c|].
    + rewrite stored_wins_set_other by congruence. reflexivity.
    + rewrite stored_wins_app. simpl.
      destruct (String.eqb_spec (identity_of m e) y) as [E|_];
        [congruence|].
      now destruct (stored_wins t y).
Qed.

Lemma C5_first_mention_only_witness :
  photo two_mentions <> []
  /\ caption_entities two_mentions
     = [mkEntity "bold" 0 2] ++ first_mention :: [mkEntity "mention" 10 4]
  /\ Forall (fun e' => is_mention e' = false) [mkEntity "bold" 0 2]
  /\ is_mention first_mention = true
  /\ exists w,
       run_on (message_handler two_mentions) [("bob", 2); ("alice", 2)]
       = Ok (tt, w)
       /\ increments (trace w) = [identity_of two_mentions first_mention]
       /\ store_accesses (trace w)
          = [StoreIncrement (identity_of two_mentions first_mention)]
       /\ increment_win_count (identity_of two_mentions first_mention)
                              [("bob", 2); ("alice", 2)]
          = Ok (Py.PyNone, db w)
       /\ count_of (db w) (identity_of two_mentions first_mention)
          = count_of [("bob", 2); ("alice", 2)]
                     (identity_of two_mentions first_mention) + 1
       /\ (forall y, y <> identity_of two_mentions first_mention ->
                     count_of (db w) y
                     = count_of [("bob", 2); ("alice", 2)] y)
       /\ replies (trace w)
          = [Reply ("Counted a Catan win for "
                    ++ mention_text_of two_mentions first_mention ++ "!")
                   None].
Proof.
  assert (Hp : photo two_mentions <> []) by (intros E; discriminate E).
  assert (Hpre : Forall (fun e' => is_mention e' = false)
                        [mkEntity "bold" 0 2]) by (repeat constructor).
  split; [exact Hp|]. split; [reflexivity|]. split; [exact Hpre|].
  split; [reflexivity|].
  apply (C5_first_mention_only two_mentions [mkEntity "bold" 0 2]
           first_mention [mkEntity "mention" 10 4]
           [("bob", 2); ("alice", 2)] Hp eq_refl Hpre eq_refl).
Defined.

Example ex_two_mentions :
  run_on (message_handler two_mentions) [("bob", 2); ("alice", 2)]
  = Ok (tt, mkWorld [("bob", 2); ("alice", 3)]
              [PrintMessage two_mentions;
               PrintEntity (mkEntity "bold" 0 2);
               PrintEntity first_mention;
               StoreIncrement "alice";
               LogInfo "Incremented win for user: alice";
               Reply "Counted a Catan win for @alice!" None]).
Proof. reflexivity. Qed.

(** C8: on a message without a photo, or with a photo but without a mention
    among its entities, the handler reaches neither the store nor the chat:
    the store is as before, and the trace holds no store call and no
    reply. *)
Theorem C8_no_detection_silent (m : message) (t : table) :
  photo m = [] \/ Forall (fun e => is_mention e = false) (caption_entities m) ->
  exists w,
    run_on (message_handler m) t = Ok (tt, w)
    /\ db w = t
    /\ store_accesses (trace w) = []
    /\ increments (trace w) = []
    /\ replies (trace w) = [].
Proof.
  intros H.
  destruct (message_handler_no_detection m t H) as (tr & Hrun & I & S & R).
  exists (mkWorld t tr). now repeat split.
Qed.

Lemma C8_no_detection_silent_witness :
  (photo no_photo = []
   \/ Forall (fun e => is_mention e = false) (caption_entities no_photo))
  /\ (photo no_mention = []
      \/ Forall (fun e => is_mention e = false) (caption_entities no_mention))
  /\ (exists w,
        run_on (message_handler no_photo) [("bob", 2)] = Ok (tt, w)
        /\ db w = [("bob", 2)]
        /\ store_accesses (trace w) = []
        /\ increments (trace w) = []
        /\ replies (trace w) = [])
  /\ (exists w,
        run_on (message_handler no_mention) [("bob", 2)] = Ok (tt, w)
        /\ db w = [("bob", 2)]
        /\ store_accesses (trace w) = []
        /\ increments (trace w) = []
        /\ replies (trace w) = []).
Proof.
  assert (H1 : photo no_photo = []
               \/ Forall (fun e => is_mention e = false)
                         (caption_entities no_photo))
    by (left; reflexivity).
  assert (H2 : photo no_mention = []
               \/ Forall (fun e => is_mention e = false)
                         (caption_entities no_mention))
    by (right; repeat constructor).
  split; [exact H1|]. split; [exact H2|]. split.
  - apply (C8_no_detection_silent no_photo [("bob", 2)] H1).
  - apply (C8_no_detection_silent no_mention [("bob", 2)] H2).
Defined.

(** C10: whatever the message, an identity that the handler hands to
    [increment_win_count] does not begin with a sigil, every leading sigil of
    the mention text being taken off; so a table whose keys begin with no
    sigil is still such a table after the handler. *)
Theorem C10_identity_without_sigil (m : message) (t : table) :
  exists w,
    run_on (message_handler m) t = Ok (tt, w)
    /\ Forall (fun u => no_sigil u = true) (increments (trace w))
    /\ (Forall (fun r => no_sigil (username r) = true) t ->
        Forall (fun r => no_sigil (username r) = true) (db w)).
Proof.
  destruct (photo m) as [|p ps] eqn:Hp.
  - destruct (message_handler_no_detection m t (or_introl Hp))
      as (tr & Hrun & I & _).
    exists (mkWorld t tr). split; [exact Hrun|]. simpl. rewrite I.
    split; [constructor | trivial].
  - destruct (first_mention_split (caption_entities m))
      as [Hnone | (pre & e & rest & Hent & Hpre & He)].
    + destruct (message_handler_no_detection m t (or_intror Hnone))
        as (tr & Hrun & I & _).
      exists (mkWorld t tr). split; [exact Hrun|]. simpl. rewrite I.
      split; [constructor | trivial].
    + assert (Hphoto : photo m <> []) by (rewrite Hp; discriminate).
      destruct (message_handler_first_mention m pre e rest Hphoto Hent
                  Hpre He t) as (db' & Hinc & Hrun).
      destruct (counted_trace_events m pre e) as (I & _).
      exists (mkWorld db' (counted_trace m pre e)).
      split; [exact Hrun|]. cbn [trace db]. rewrite I. split.
      * constructor; [apply lstrip_no_sigil | constructor].
      * intros Hkeys.
        assert (Hk : Forall (fun u => no_sigil u = true) (map username t))
          by (apply Forall_map; exact Hkeys).
        apply (proj1 (Forall_map username (fun u => no_sigil u = true) db')).
        destruct (increment_keys _ _ _ _ Hinc) as [-> | ->];
          [exact Hk|].
        apply Forall_app. split; [exact Hk|].
        constructor; [apply lstrip_no_sigil | constructor].
Qed.

Lemma C10_identity_without_sigil_witness :
  Forall (fun r => no_sigil (username r) = true) [("alice", 1)]
  /\ exists w,
       run_on (message_handler two_sigils) [("alice", 1)] = Ok (tt, w)
       /\ Forall (fun u => no_sigil u = true) (increments (trace w))
       /\ Forall (fun r => no_sigil (username r) = true) (db w).
Proof.
  assert (Hkeys : Forall (fun r => no_sigil (username r) = true)
                         [("alice", 1)]) by (repeat constructor).
  split; [exact Hkeys|].
  destruct (C10_identity_without_sigil two_sigils [("alice", 1)])
    as (w & Hrun & Hinc & Hdb).
  exists w. split; [exact Hrun|]. split; [exact Hinc | exact (Hdb Hkeys)].
Defined.

(* ------------------------------------------------------------------ *)
(** ** Facts about the rendering of the leaderboard *)

Section RenderingFacts.

Lemma char_in_app (c : ascii) (a b : string) :
  Py.char_in c (a ++ b) = Py.char_in c a || Py.char_in c b.
Proof.
  induction a as [|d a IH]; [reflexivity|].
  simpl. rewrite IH. apply orb_assoc.
Qed.

Lemma digits_no_line_feed (d : Decimal.uint) :
  Py.char_in Py.line_feed (NilEmpty.string_of_uint d) = false.
Proof. induction d; simpl; auto. Qed.

Lemma str_of_int_no_line_feed (n : Z) :
  Py.char_in Py.line_feed (Py.str_of_int n) = false.
Proof.
  unfold Py.str_of_int, NilZero.string_of_int, NilZero.string_of_uint.
  destruct (Z.to_int n) as [d|d]; destruct d; simpl;
    auto using digits_no_line_feed.
Qed.

Lemma leaderboard_line_no_line_feed (r : row) :
  Py.char_in Py.line_feed (username r) = false ->
  Py.char_in Py.line_feed (leaderboard_line r) = false.
Proof.
  intros H. unfold leaderboard_line.
  rewrite !char_in_app, H, str_of_int_no_line_feed. reflexivity.
Qed.

Lemma char_in_cons (c d : ascii) (s : string) :
  Py.char_in c (String d s) = Ascii.eqb c d || Py.char_in c s.
Proof. reflexivity. Qed.

Lemma split_part (c : ascii) (p rest : string) :
  Py.char_in c p = false ->
  Py.split c (p ++ String c rest) = p :: Py.split c rest.
Proof.
  induction p as [|d p IH]; intros H.
  - simpl. now rewrite Ascii.eqb_refl.
  - rewrite char_in_cons in H. apply orb_false_elim in H as [Hd Hp].
    simpl. rewrite Ascii.eqb_sym, Hd, (IH Hp). reflexivity.
Qed.

Lemma split_last (c : ascii) (p : string) :
  Py.char_in c p = false -> Py.split c p = [p].
Proof.
  induction p as [|d p IH]; intros H; [reflexivity|].
  rewrite char_in_cons in H. apply orb_false_elim in H as [Hd Hp].
  simpl. rewrite Ascii.eqb_sym, Hd, (IH Hp). reflexivity.
Qed.

(** Splitting at the separator undoes [join] when no part contains it. *)
Lemma split_join (c : ascii) (parts : list string) :
  parts <> [] ->
  Forall (fun p => Py.char_in c p = false) parts ->
  Py.split c (Py.join (String c EmptyString) parts) = parts.
Proof.
  intros Hne Hall. induction Hall as [|p parts Hp Hall IH]; [contradiction|].
  destruct parts as [|q parts].
  - simpl. now apply split_last.
  - change (Py.join (String c EmptyString) (p :: q :: parts))
      with (p ++ String c (Py.join (String c EmptyString) (q :: parts)))%string.
    rewrite (split_part c p _ Hp), IH by discriminate. reflexivity.
Qed.

Lemma stats_command_run (t : table) :
  run_on stats_command t
  = Ok (tt, mkWorld t
              [StoreLeaderboard;
               match order_by_wins_desc t with
               | [] => Reply no_wins_text None
               | _ :: _ =>
                   Reply (leaderboard_header ++ Py.newline
                          ++ Py.join Py.newline
                               (map leaderboard_line (order_by_wins_desc t)))
                         (Some "Markdown")
               end]).
Proof.
  unfold run_on, stats_command, bind, call_store. simpl.
  destruct (order_by_wins_desc t); reflexivity.
Qed.

End RenderingFacts.

(** C9: [stats_command] asks the store for the leaderboard and sends one
    reply.  The reply is the fixed text "No wins recorded yet!" exactly when
    the leaderboard is empty.  Otherwise it is the header followed by one
    rendering [@identity: count] per row, joined by line feeds, in the order
    of the leaderboard, sent as Markdown; when no identity contains a line
    feed, the lines of the reply are the header and then these renderings,
    one to a line. *)
Theorem C9_stats_reply (t : table) :
  exists rows text mode,
    get_leaderboard t = Ok (rows, t)
    /\ run_on stats_command t
       = Ok (tt, mkWorld t [StoreLeaderboard; Reply text mode])
    /\ (text = no_wins_text <-> rows = [])
    /\ (rows = [] -> mode = None)
    /\ (rows <> [] ->
        mode = Some "Markdown"
        /\ text = (leaderboard_header ++ Py.newline
                   ++ Py.join Py.newline
                        (map (fun r => "@" ++ username r ++ ": "
                                       ++ Py.str_of_int (wins r)) rows))%string)
    /\ (rows <> [] ->
        Forall (fun r => Py.char_in Py.line_feed (username r) = false) t ->
        Py.split Py.line_feed text
        = leaderboard_header
          :: map (fun r => "@" ++ username r ++ ": "
                           ++ Py.str_of_int (wins r))%string rows).
Proof.
  pose proof (stats_command_run t) as Hrun.
  pose proof (order_by_wins_desc_perm t) as Hperm.
  destruct (order_by_wins_desc t) as [|r rows] eqn:E.
  - exists [], no_wins_text, None.
    split; [now rewrite get_leaderboard_run, E|]. split; [exact Hrun|].
    split; [tauto|]. split; [reflexivity|]. split; intros H; now destruct H.
  - eexists (r :: rows), _, _.
    split; [now rewrite get_leaderboard_run, E|]. split; [exact Hrun|].
    split; [split; intros H; discriminate H|].
    split; [intros H; discriminate H|].
    split; [intros _; split; reflexivity|].
    intros _ Hall.
    change (leaderboard_header ++ Py.newline
            ++ Py.join Py.newline (map leaderboard_line (r :: rows)))%string
      with (Py.join Py.newline
              (leaderboard_header :: map leaderboard_line (r :: rows))).
    unfold Py.newline. rewrite split_join; [reflexivity | discriminate |].
    constructor; [reflexivity|].
    apply Forall_map.
    apply (Permutation_Forall (x := t)); [now symmetry|].
    revert Hall. apply Forall_impl. intros a.
    apply leaderboard_line_no_line_feed.
Qed.

Lemma C9_stats_reply_witness :
  Forall (fun r => Py.char_in Py.line_feed (username r) = false)
         [("A", 3); ("C", 5); ("B", 5)]
  /\ exists text,
       run_on stats_command [("A", 3); ("C", 5); ("B", 5)]
       = Ok (tt, mkWorld [("A", 3); ("C", 5); ("B", 5)]
                   [StoreLeaderboard; Reply text (Some "Markdown")])
       /\ Py.split Py.line_feed text
          = ["**Catan Wins Leaderboard**"; "@C: 5"; "@B: 5"; "@A: 3"].
Proof.
  assert (Hall : Forall (fun r => Py.char_in Py.line_feed (username r) = false)
                        [("A", 3); ("C", 5); ("B", 5)])
    by (repeat constructor).
  split; [exact Hall|].
  destruct (C9_stats_reply [("A", 3); ("C", 5); ("B", 5)])
    as (rows & text & mode & Hrows & Hrun & _ & _ & Hsome & Hlines).
  assert (E : rows = [("C", 5); ("B", 5); ("A", 3)])
    by (injection Hrows as <-; reflexivity).
  assert (Hne : rows <> []) by (rewrite E; intros H; discriminate H).
  exists text. destruct (Hsome Hne) as [<- _].
  split; [exact Hrun|]. rewrite (Hlines Hne Hall), E. reflexivity.
Defined.

Example ex_stats_empty :
  run_on stats_command []
  = Ok (tt, mkWorld [] [StoreLeaderboard; Reply "No wins recorded yet!" None]).
Proof. reflexivity. Qed.

(* ------------------------------------------------------------------ *)
(** ** Further properties of the store *)

Section MoreStoreFacts.

Lemma stored_wins_in (t : table) (u : string) (w : Z) :
  stored_wins t u = Some w -> In (u, w) t.
Proof.
  induction t as [|[k c] t IH]; simpl; [discriminate|].
  destruct (String.eqb_spec k u) as [->|_].
  - intros H. injection H as ->. now left.
  - intros H. right. now apply IH.
Qed.

Lemma in_stored_wins (t : table) (u : string) (w : Z) :
  NoDup (map username t) -> In (u, w) t -> stored_wins t u = Some w.
Proof.
  induction t as [|[k c] t IH]; simpl; [tauto|].
  intros Hnd [H|H]; inversion Hnd as [|? ? Hk Hnd']; subst.
  - injection H as -> ->. now rewrite String.eqb_refl.
  - destruct (String.eqb_spec k u) as [->|_]; [|now apply IH].
    exfalso. apply Hk. apply (in_map username) in H. exact H.
Qed.

(** The count of every identity after one increment. *)
Lemma count_of_incremented (u z : string) (t t' : table) (v : Py.value) :
  increment_win_count u t = Ok (v, t') ->
  count_of t' z = count_of t z + (if String.eqb z u then 1 else 0).
Proof.
  intros H. destruct (String.eqb_spec z u) as [->|Hzu].
  - unfold count_of at 1. now rewrite (stored_wins_incremented _ _ _ _ H).
  - rewrite increment_win_count_run in H. injection H as _ <-.
    unfold count_of. destruct (stored_wins t u) as [w|].
    + rewrite stored_wins_set_other by congruence. lia.
    + rewrite stored_wins_app. simpl.
      destruct (String.eqb_spec u z) as [E|_]; [congruence|].
      destruct (stored_wins t z); lia.
Qed.

Lemma occurrences_cons (z u : string) (us : list string) :
  occurrences z (u :: us)
  = (if String.eqb z u then 1 else 0) + occurrences z us.
Proof.
  unfold occurrences. simpl.
  destruct (string_dec u z) as [->|N].
  - rewrite String.eqb_refl. lia.
  - destruct (String.eqb_spec z u) as [E|_]; [congruence | lia].
Qed.

Lemma increment_all_run (us : list string) :
  forall t, exists t',
    increment_all us t = Ok (tt, t')
    /\ forall z, count_of t' z = count_of t z + occurrences z us.
Proof.
  induction us as [|u us IH]; intros t.
  - exists t. split; [reflexivity|]. intros z. unfold occurrences. simpl. lia.
  - destruct (increment_win_count_adds_one u t) as (t1 & H1 & _).
    destruct (IH t1) as (t2 & H2 & Hcount).
    exists t2. split.
    + simpl. unfold bind. rewrite H1. exact H2.
    + intros z. rewrite Hcount, (count_of_incremented u z t t1 _ H1),
        occurrences_cons. lia.
Qed.

Lemma set_wins_positive (w : Z) (u : string) (t : table) :
  1 <= w ->
  Forall (fun r => 1 <= wins r) t ->
  Forall (fun r => 1 <= wins r) (set_wins w u t).
Proof.
  intros Hw Hall. unfold set_wins. apply Forall_map.
  revert Hall. apply Forall_impl. intros r Hr.
  destruct (String.eqb (username r) u); [exact Hw | exact Hr].
Qed.

End MoreStoreFacts.

(** X1: the primary key of [winners] is kept: on a table with one row per
    username, [increment_win_count] returns a table with one row per
    username, and never raises the integrity error the key could cause. *)
Theorem X1_increment_keeps_one_row_per_username (u : string) (t : table) :
  NoDup (map username t) ->
  exists t',
    increment_win_count u t = Ok (Py.PyNone, t')
    /\ NoDup (map username t').
Proof.
  intros Hnd. destruct (increment_win_count_adds_one u t) as (t' & H & _).
  exists t'. split; [exact H|].
  exact (increment_keeps_primary_key u t t' _ Hnd H).
Qed.

Lemma X1_increment_keeps_one_row_per_username_witness :
  NoDup (map username [("bob", 2); ("alice", 1)])
  /\ exists t',
       increment_win_count "carol" [("bob", 2); ("alice", 1)]
       = Ok (Py.PyNone, t')
       /\ NoDup (map username t').
Proof.
  assert (H : NoDup (map username [("bob", 2); ("alice", 1)])).
  { simpl. constructor.
    - intros [E|[]]. discriminate E.
    - constructor; [intros [] | constructor]. }
  split; [exact H|].
  apply (X1_increment_keeps_one_row_per_username "carol" _ H).
Defined.

(** X2: [increment_win_count] never deletes or moves a row: the usernames of
    the table, in row order, are the ones before, followed by the
    incremented one exactly when it had no row; the table grows by one row
    in that case and keeps its size otherwise. *)
Theorem X2_increment_keeps_rows_in_place (u : string) (t : table) :
  exists t',
    increment_win_count u t = Ok (Py.PyNone, t')
    /\ map username t'
       = map username t
         ++ match stored_wins t u with Some _ => [] | None => [u] end
    /\ List.length t'
       = (List.length t
          + match stored_wins t u with Some _ => 0 | None => 1 end)%nat.
Proof.
  eexists. split; [apply increment_win_count_run|].
  destruct (stored_wins t u) as [w|].
  - rewrite set_wins_keys, app_nil_r. split; [reflexivity|].
    unfold set_wins. rewrite length_map. lia.
  - rewrite map_app, length_app. split; reflexivity.
Qed.

(** X3: no stored count is ever below 1: on a table all of whose counts are
    at least 1, [increment_win_count] returns such a table (the schema's
    default 0 is never written). *)
Theorem X3_increment_keeps_counts_positive (u : string) (t : table) :
  Forall (fun r => 1 <= wins r) t ->
  exists t',
    increment_win_count u t = Ok (Py.PyNone, t')
    /\ Forall (fun r => 1 <= wins r) t'.
Proof.
  intros Hall. eexists. split; [apply increment_win_count_run|].
  destruct (stored_wins t u) as [w|] eqn:E.
  - apply set_wins_positive; [|exact Hall].
    apply stored_wins_in in E.
    rewrite Forall_forall in Hall. specialize (Hall _ E). simpl in Hall. lia.
  - apply Forall_app. split; [exact Hall|].
    constructor; [simpl; lia | constructor].
Qed.

Lemma X3_increment_keeps_counts_positive_witness :
  Forall (fun r => 1 <= wins r) [("bob", 2); ("alice", 1)]
  /\ exists t',
       increment_win_count "alice" [("bob", 2); ("alice", 1)]
       = Ok (Py.PyNone, t')
       /\ Forall (fun r => 1 <= wins r) t'.
Proof.
  assert (H : Forall (fun r => 1 <= wins r) [("bob", 2); ("alice", 1)])
    by (repeat constructor; simpl; lia).
  split; [exact H|].
  apply (X3_increment_keeps_counts_positive "alice" _ H).
Defined.

(** X4: after any run of calls of [increment_win_count], for any identities
    in any interleaving, the count of every identity is its count before
    plus the number of calls made for it. *)
Theorem X4_counts_after_increments (us : list string) (t : table) :
  exists t',
    increment_all us t = Ok (tt, t')
    /\ forall z, count_of t' z = count_of t z + occurrences z us.
Proof. apply increment_all_run. Qed.

(** X5: the tally does not depend on the order in which the wins come in:
    two runs of increments that are permutations of each other leave the
    same count for every identity. *)
Theorem X5_counts_independent_of_order (us vs : list string) (t : table) :
  Permutation us vs ->
  exists t1 t2,
    increment_all us t = Ok (tt, t1)
    /\ increment_all vs t = Ok (tt, t2)
    /\ forall z, count_of t1 z = count_of t2 z.
Proof.
  intros Hperm.
  destruct (increment_all_run us t) as (t1 & H1 & C1).
  destruct (increment_all_run vs t) as (t2 & H2 & C2).
  exists t1, t2. split; [exact H1|]. split; [exact H2|].
  intros z. rewrite C1, C2. unfold occurrences.
  rewrite (proj1 (Permutation_count_occ string_dec us vs) Hperm z).
  reflexivity.
Qed.

Lemma X5_counts_independent_of_order_witness :
  Permutation ["bob"; "alice"; "bob"] ["alice"; "bob"; "bob"]
  /\ exists t1 t2,
       increment_all ["bob"; "alice"; "bob"] [] = Ok (tt, t1)
       /\ increment_all ["alice"; "bob"; "bob"] [] = Ok (tt, t2)
       /\ forall z, count_of t1 z = count_of t2 z.
Proof.
  assert (H : Permutation ["bob"; "alice"; "bob"] ["alice"; "bob"; "bob"])
    by apply perm_swap.
  split; [exact H|].
  apply (X5_counts_independent_of_order _ _ [] H).
Defined.

(* ------------------------------------------------------------------ *)
(** ** Further properties of the leaderboard *)

Section MoreLeaderboardFacts.

Lemma with_wins_in (c : Z) (r : row) (l : list row) :
  In r (with_wins c l) -> In r l.
Proof. unfold with_wins. intros H. now apply filter_In in H. Qed.

Lemma with_wins_head (r : row) (l : list row) :
  with_wins (wins r) (r :: l) = r :: with_wins (wins r) l.
Proof. unfold with_wins. simpl. now rewrite Z.eqb_refl. Qed.

Lemma with_wins_skip (c : Z) (r : row) (l : list row) :
  wins r <> c -> with_wins c (r :: l) = with_wins c l.
Proof.
  intros H. unfold with_wins. simpl.
  destruct (Z.eqb_spec (wins r) c); [contradiction | reflexivity].
Qed.

Lemma with_wins_all_empty (l : list row) :
  (forall c, with_wins c l = []) -> l = [].
Proof.
  destruct l as [|r l]; [reflexivity|].
  intros H. specialize (H (wins r)). rewrite with_wins_head in H.
  discriminate H.
Qed.

(** Two arrangements of the same rows that are both sorted by count
    descending and agree on the order within every count are equal. *)
Lemma stable_sorted_unique (l1 : list row) :
  forall l2,
    StronglySorted by_wins_desc l1 ->
    StronglySorted by_wins_desc l2 ->
    (forall c, with_wins c l1 = with_wins c l2) ->
    l1 = l2.
Proof.
  induction l1 as [|a l1 IH]; intros l2 S1 S2 Heq.
  - symmetry. apply with_wins_all_empty. intros c. now rewrite <- Heq.
  - destruct l2 as [|b l2].
    + apply with_wins_all_empty. exact Heq.
    + inversion S1 as [|? ? S1' F1]; subst.
      inversion S2 as [|? ? S2' F2]; subst.
      assert (Hab : a = b).
      { destruct (Z.eq_dec (wins b) (wins a)) as [E|N].
        - pose proof (Heq (wins a)) as H.
          rewrite with_wins_head, <- E, with_wins_head in H.
          now injection H.
        - exfalso.
          pose proof (Heq (wins a)) as Ha.
          rewrite with_wins_head, (with_wins_skip _ b) in Ha by exact N.
          pose proof (Heq (wins b)) as Hb.
          rewrite with_wins_head, (with_wins_skip _ a) in Hb by congruence.
          assert (Ia : In a l2)
            by (apply (with_wins_in (wins a)); rewrite <- Ha; now left).
          assert (Ib : In b l1)
            by (apply (with_wins_in (wins b)); rewrite Hb; now left).
          rewrite Forall_forall in F1, F2.
          specialize (F1 _ Ib). specialize (F2 _ Ia).
          unfold by_wins_desc in F1, F2. lia. }
      subst b. f_equal. apply IH; [exact S1' | exact S2' |].
      intros c. specialize (Heq c). unfold with_wins in *. simpl in Heq.
      destruct (wins a =? c); [now injection Heq | exact Heq].
Qed.

End MoreLeaderboardFacts.

(** X6: on a table with one row per username, [get_leaderboard] lists every
    stored identity once, with its stored count, and lists nothing else. *)
Theorem X6_leaderboard_lists_stored_counts (t : table) :
  NoDup (map username t) ->
  exists rows,
    get_leaderboard t = Ok (rows, t)
    /\ NoDup (map username rows)
    /\ forall u c, In (u, c) rows <-> stored_wins t u = Some c.
Proof.
  intros Hnd. exists (order_by_wins_desc t).
  pose proof (order_by_wins_desc_perm t) as Hperm.
  split; [reflexivity|]. split.
  - apply (Permutation_NoDup (l := map username t)); [|exact Hnd].
    apply Permutation_map. now symmetry.
  - intros u c. split.
    + intros H. apply in_stored_wins; [exact Hnd|].
      exact (Permutation_in _ Hperm H).
    + intros H. apply stored_wins_in in H.
      apply (Permutation_in _ (Permutation_sym Hperm) H).
Qed.

Lemma X6_leaderboard_lists_stored_counts_witness :
  NoDup (map username [("A", 3); ("C", 5); ("B", 5)])
  /\ exists rows,
       get_leaderboard [("A", 3); ("C", 5); ("B", 5)]
       = Ok (rows, [("A", 3); ("C", 5); ("B", 5)])
       /\ NoDup (map username rows)
       /\ forall u c, In (u, c) rows
                      <-> stored_wins [("A", 3); ("C", 5); ("B", 5)] u = Some c.
Proof.
  assert (H : NoDup (map username [("A", 3); ("C", 5); ("B", 5)])).
  { simpl. constructor.
    - intros [E|[E|[]]]; discriminate E.
    - constructor.
      + intros [E|[]]. discriminate E.
      + constructor; [intros [] | constructor]. }
  split; [exact H|].
  apply (X6_leaderboard_lists_stored_counts _ H).
Defined.

(** X7: the leaderboard is the only arrangement of the table that is sorted
    by count descending and keeps, within every count, the row order of the
    table: whatever sequence has these two properties is what
    [get_leaderboard] returns. *)
Theorem X7_leaderboard_is_the_stable_arrangement (t : table)
        (rows : list row) :
  StronglySorted by_wins_desc rows ->
  (forall c, with_wins c rows = with_wins c t) ->
  get_leaderboard t = Ok (rows, t).
Proof.
  intros Hsorted Hstable. rewrite get_leaderboard_run. do 2 f_equal.
  apply stable_sorted_unique.
  - apply order_by_wins_desc_sorted.
  - exact Hsorted.
  - intros c. now rewrite order_by_wins_desc_with_wins, Hstable.
Qed.

Lemma X7_leaderboard_is_the_stable_arrangement_witness :
  StronglySorted by_wins_desc [("C", 5); ("B", 5); ("A", 3)]
  /\ (forall c, with_wins c [("C", 5); ("B", 5); ("A", 3)]
                = with_wins c [("A", 3); ("C", 5); ("B", 5)])
  /\ get_leaderboard [("A", 3); ("C", 5); ("B", 5)]
     = Ok ([("C", 5); ("B", 5); ("A", 3)], [("A", 3); ("C", 5); ("B", 5)]).
Proof.
  assert (Hs : StronglySorted by_wins_desc [("C", 5); ("B", 5); ("A", 3)])
    by (repeat constructor; unfold by_wins_desc; simpl; lia).
  assert (Hw : forall c, with_wins c [("C", 5); ("B", 5); ("A", 3)]
                         = with_wins c [("A", 3); ("C", 5); ("B", 5)]).
  { intros c. unfold with_wins. cbn [filter wins snd].
    destruct (Z.eqb_spec 5 c) as [E5|N5];
      destruct (Z.eqb_spec 3 c) as [E3|N3]; try reflexivity.
    exfalso. lia. }
  split; [exact Hs|]. split; [exact Hw|].
  apply (X7_leaderboard_is_the_stable_arrangement _ _ Hs Hw).
Defined.

(** X8: the leaderboard is empty exactly when the table has no rows, and its
    first row carries a count that no row of the table exceeds. *)
Theorem X8_leader_has_most_wins (t : table) :
  exists rows,
    get_leaderboard t = Ok (rows, t)
    /\ (rows = [] <-> t = [])
    /\ forall r rest, rows = r :: rest ->
                      forall x, In x t -> wins x <= wins r.
Proof.
  exists (order_by_wins_desc t).
  pose proof (order_by_wins_desc_perm t) as Hperm.
  pose proof (order_by_wins_desc_sorted t) as Hsorted.
  split; [reflexivity|]. split; [split|].
  - intros E. rewrite E in Hperm. now apply Permutation_nil.
  - intros ->. reflexivity.
  - intros r rest E x Hx. rewrite E in Hperm, Hsorted.
    apply (Permutation_in _ (Permutation_sym Hperm)) in Hx.
    inversion Hsorted as [|? ? _ Hall]; subst.
    destruct Hx as [<-|Hx]; [lia|].
    rewrite Forall_forall in Hall. exact (Hall _ Hx).
Qed.

Lemma X8_leader_has_most_wins_witness :
  exists r rest,
    get_leaderboard [("A", 3); ("C", 5); ("B", 5)]
    = Ok (r :: rest, [("A", 3); ("C", 5); ("B", 5)])
    /\ forall x, In x [("A", 3); ("C", 5); ("B", 5)] -> wins x <= wins r.
Proof.
  destruct (X8_leader_has_most_wins [("A", 3); ("C", 5); ("B", 5)])
    as (rows & Hrun & _ & Hmax).
  assert (E : rows = [("C", 5); ("B", 5); ("A", 3)])
    by (injection Hrun as <-; reflexivity).
  exists ("C", 5), [("B", 5); ("A", 3)].
  split; [reflexivity|]. exact (Hmax _ _ E).
Defined.

(* ------------------------------------------------------------------ *)
(** ** The handler and the detector *)

Section DetectorFacts.

Lemma find_mention_none (es : list entity) :
  find_mention es = None -> Forall (fun e => is_mention e = false) es.
Proof.
  induction es as [|x es IH]; simpl; [constructor|].
  destruct (String.eqb (type x) "mention") eqn:E; [discriminate|].
  intros H. constructor; [exact E | now apply IH].
Qed.

Lemma find_mention_some (es : list entity) (e : entity) :
  find_mention es = Some e ->
  exists pre rest,
    es = pre ++ e :: rest
    /\ Forall (fun e' => is_mention e' = false) pre
    /\ is_mention e = true.
Proof.
  induction es as [|x es IH]; simpl; [discriminate|].
  destruct (String.eqb (type x) "mention") eqn:E.
  - intros H. injection H as ->. exists [], es.
    repeat split; [constructor | exact E].
  - intros H. destruct (IH H) as (pre & rest & -> & Hpre & He).
    exists (x :: pre), rest. repeat split; [now constructor | exact He].
Qed.

(** One call of [message_handler], from any state of the store and after any
    earlier events, told by [detect]. *)
Lemma message_handler_step (m : message) (w : world) :
  exists w',
    message_handler m w = Ok (tt, w')
    /\ match detect m with
       | None =>
           db w' = db w
           /\ increments (trace w') = increments (trace w)
           /\ store_accesses (trace w') = store_accesses (trace w)
           /\ replies (trace w') = replies (trace w)
       | Some u =>
           increment_win_count u (db w) = Ok (Py.PyNone, db w')
           /\ increments (trace w') = increments (trace w) ++ [u]
           /\ store_accesses (trace w')
              = store_accesses (trace w) ++ [StoreIncrement u]
           /\ exists text,
                replies (trace w') = replies (trace w) ++ [Reply text None]
       end.
Proof.
  unfold detect. destruct (photo m) as [|p ps] eqn:Hp.
  - rewrite message_handler_no_photo by exact Hp.
    eexists. split; [reflexivity|]. cbn [db trace].
    rewrite increments_app, store_accesses_app, replies_app. simpl.
    now rewrite !app_nil_r.
  - rewrite message_handler_photo by (rewrite Hp; discriminate).
    destruct (find_mention (caption_entities m)) as [e|] eqn:Hf.
    + destruct (find_mention_some _ _ Hf) as (pre & rest & -> & Hpre & He).
      destruct (scan_entities_first_mention m e rest pre Hpre He
                  (mkWorld (db w) (trace w ++ [PrintMessage m])))
        as (db' & Hinc & Hscan).
      rewrite Hscan. eexists. split; [reflexivity|]. cbn [db trace] in *.
      destruct (prints_quiet pre) as (I & S & R).
      split; [exact Hinc|].
      rewrite !increments_app, !store_accesses_app, !replies_app, I, S, R.
      simpl. rewrite !app_nil_r. repeat split. eexists. reflexivity.
    + rewrite scan_entities_no_mention by (now apply find_mention_none).
      eexists. split; [reflexivity|]. cbn [db trace].
      destruct (prints_quiet (caption_entities m)) as (I & S & R).
      rewrite !increments_app, !store_accesses_app, !replies_app, I, S, R.
      simpl. now rewrite !app_nil_r.
Qed.

Lemma handle_all_run (ms : list message) :
  forall w, exists w',
    handle_all ms w = Ok (tt, w')
    /\ increments (trace w') = increments (trace w) ++ detected ms
    /\ List.length (replies (trace w'))
       = (List.length (replies (trace w)) + List.length (detected ms))%nat
    /\ forall z, count_of (db w') z
                 = count_of (db w) z + occurrences z (detected ms).
Proof.
  induction ms as [|m ms IH]; intros w.
  - exists w. split; [reflexivity|]. simpl. rewrite app_nil_r.
    split; [reflexivity|]. split; [lia|].
    intros z. unfold occurrences. simpl. lia.
  - destruct (message_handler_step m w) as (w1 & H1 & Hstep).
    destruct (IH w1) as (w2 & H2 & I2 & R2 & C2).
    exists w2. split; [simpl; unfold bind; rewrite H1; exact H2|].
    simpl detected. destruct (detect m) as [u|].
    + destruct Hstep as (Hinc & I1 & _ & text & R1).
      rewrite I2, R2, I1, R1, <- app_assoc, length_app. simpl.
      split; [reflexivity|]. split; [lia|].
      intros z. rewrite C2, (count_of_incremented u z _ _ _ Hinc),
        occurrences_cons. lia.
    + destruct Hstep as (D1 & I1 & _ & R1).
      rewrite D1 in C2. rewrite I2, R2, I1, R1.
      split; [reflexivity|]. split; [reflexivity | exact C2].
Qed.

End DetectorFacts.

(** X9: [message_handler] does what [detect] tells, for every message and
    store: when [detect] finds nothing the store is left as it is and no
    identity is counted; when it finds an identity, the store is the result
    of one [increment_win_count] for that identity and nothing else is
    counted. *)
Theorem X9_handler_follows_detect (m : message) (t : table) :
  exists w,
    run_on (message_handler m) t = Ok (tt, w)
    /\ increments (trace w)
       = match detect m with Some u => [u] | None => [] end
    /\ match detect m with
       | None => db w = t
       | Some u => increment_win_count u t = Ok (Py.PyNone, db w)
       end.
Proof.
  destruct (message_handler_step m (mkWorld t [])) as (w & Hrun & Hstep).
  exists w. split; [exact Hrun|].
  destruct (detect m) as [u|].
  - destruct Hstep as (Hinc & I & _). split; [exact I | exact Hinc].
  - destruct Hstep as (D & I & _). split; [exact I | exact D].
Qed.

(** X10: for every message, [message_handler] replies exactly as often as it
    counts a win, which is at most once; its only access to the store is
    that increment (it never reads the leaderboard). *)
Theorem X10_one_reply_per_counted_win (m : message) (t : table) :
  exists w,
    run_on (message_handler m) t = Ok (tt, w)
    /\ List.length (replies (trace w)) = List.length (increments (trace w))
    /\ (List.length (increments (trace w)) <= 1)%nat
    /\ store_accesses (trace w) = map StoreIncrement (increments (trace w)).
Proof.
  destruct (message_handler_step m (mkWorld t [])) as (w & Hrun & Hstep).
  exists w. split; [exact Hrun|].
  destruct (detect m) as [u|].
  - destruct Hstep as (_ & I & S & text & R). rewrite I, S, R. simpl.
    repeat split. lia.
  - destruct Hstep as (_ & I & S & R). rewrite I, S, R. simpl.
    repeat split. lia.
Qed.

(** X11: after any run of messages through [message_handler], from any
    store, the count of every identity is its count before plus the number
    of messages in which [detect] finds it; the wins counted are these
    detections in order, and there are as many replies as detections. *)
Theorem X11_counts_after_messages (ms : list message) (t : table) :
  exists w,
    run_on (handle_all ms) t = Ok (tt, w)
    /\ increments (trace w) = detected ms
    /\ List.length (replies (trace w)) = List.length (detected ms)
    /\ forall z, count_of (db w) z = count_of t z + occurrences z (detected ms).
Proof.
  destruct (handle_all_run ms (mkWorld t [])) as (w & Hrun & I & R & C).
  exists w. split; [exact Hrun|]. split; [exact I|]. split; [exact R|].
  exact C.
Qed.

Example ex_handle_all :
  match run_on (handle_all [two_mentions; no_photo; two_sigils; two_mentions])
               [] with
  | Ok (_, w) => db w = [("alice", 2); ("bob", 1)]
  | Raise _ => False
  end
  /\ detected [two_mentions; no_photo; two_sigils; two_mentions]
     = ["alice"; "bob"; "alice"].
Proof. split; reflexivity. Qed.

(* ------------------------------------------------------------------ *)
(** ** Mention spans inside and beyond the caption *)

Section SpanFacts.

Lemma length_append (a b : string) :
  String.length (a ++ b) = (String.length a + String.length b)%nat.
Proof. induction a as [|c a IH]; simpl; [reflexivity | now rewrite IH]. Qed.

Lemma substring_skip (a s : string) (m : nat) :
  substring (String.length a) m (a ++ s) = substring 0 m s.
Proof. induction a as [|c a IH]; simpl; [reflexivity | exact IH]. Qed.

Lemma substring_take (b c : string) :
  substring 0 (String.length b) (b ++ c) = b.
Proof.
  induction b as [|x b IH]; simpl; [now destruct c | now rewrite IH].
Qed.

(** The slice at the place of a part of a str is that part. *)
Lemma slice_exact (a b c : string) :
  Py.slice (a ++ b ++ c) (Z.of_nat (String.length a))
           (Z.of_nat (String.length a) + Z.of_nat (String.length b))
  = b.
Proof.
  destruct (slice_in_bounds (a ++ b ++ c) (Z.of_nat (String.length a))
              (Z.of_nat (String.length b))) as [E _]; try lia.
  - rewrite !length_append. lia.
  - rewrite E, !Nat2Z.id, substring_skip. apply substring_take.
Qed.

Lemma substring_nothing (s : string) (n : nat) : substring n 0 s = "".
Proof.
  revert n. induction s as [|c s IH]; intros [|n]; simpl; auto.
Qed.

(** A slice that starts at or behind the end of a str is empty. *)
Lemma slice_beyond (s : string) (a b : Z) :
  Z.of_nat (String.length s) <= a -> Py.slice s a b = "".
Proof.
  intros H. unfold Py.slice, Py.slice_bound.
  assert (E : Z.to_nat
                ((if b <? 0 then Z.max 0 (b + Z.of_nat (String.length s))
                  else Z.min b (Z.of_nat (String.length s)))
                 - (if a <? 0 then Z.max 0 (a + Z.of_nat (String.length s))
                    else Z.min a (Z.of_nat (String.length s)))) = O).
  { destruct (Z.ltb_spec a 0); destruct (Z.ltb_spec b 0); lia. }
  rewrite E. apply substring_nothing.
Qed.

Lemma lstrip_after_sigil (name : string) :
  no_sigil name = true -> Py.lstrip "@" ("@" ++ name) = name.
Proof.
  intros H. simpl. destruct name as [|c name]; [reflexivity|].
  unfold no_sigil in H. rewrite startswith_sigil in H.
  change (Py.lstrip "@" (String c name))
    with (if Py.char_in c "@" then Py.lstrip "@" name else String c name).
  rewrite char_in_sigil. now destruct (Ascii.eqb c "@"%char).
Qed.

End SpanFacts.

(** X12: a well-formed mention is read back exactly: when the first mention
    of a message with a photo spans a sigil followed by a name in the
    caption, that name (which begins with no sigil) is the identity counted,
    its count rises by one, and the reply quotes the mention with its
    sigil. *)
Theorem X12_mention_of_a_name_counts_that_name
        (m : message) (before name behind : string)
        (pre : list entity) (e : entity) (rest : list entity) (t : table) :
  photo m <> [] ->
  caption m = (before ++ ("@" ++ name) ++ behind)%string ->
  caption_entities m = pre ++ e :: rest ->
  Forall (fun e' => is_mention e' = false) pre ->
  is_mention e = true ->
  offset e = Z.of_nat (String.length before) ->
  length e = Z.of_nat (String.length ("@" ++ name)) ->
  no_sigil name = true ->
  exists w,
    run_on (message_handler m) t = Ok (tt, w)
    /\ increments (trace w) = [name]
    /\ count_of (db w) name = count_of t name + 1
    /\ replies (trace w)
       = [Reply ("Counted a Catan win for @" ++ name ++ "!") None].
Proof.
  intros Hphoto Hcap Hent Hpre He Hoff Hlen Hname.
  destruct (message_handler_first_mention m pre e rest Hphoto Hent Hpre He t)
    as (db' & Hinc & Hrun).
  destruct (counted_trace_events m pre e) as (I & _ & R).
  assert (Htext : mention_text_of m e = ("@" ++ name)%string).
  { unfold mention_text_of. rewrite Hcap, Hoff, Hlen. apply slice_exact. }
  assert (Hid : identity_of m e = name).
  { unfold identity_of. rewrite Htext. now apply lstrip_after_sigil. }
  exists (mkWorld db' (counted_trace m pre e)).
  split; [exact Hrun|]. cbn [db trace].
  rewrite I, R, Htext, Hid. split; [reflexivity|]. split; [|reflexivity].
  rewrite Hid in Hinc.
  rewrite (count_of_incremented name name t db' _ Hinc), String.eqb_refl.
  reflexivity.
Qed.

Lemma X12_mention_of_a_name_counts_that_name_witness :
  photo two_mentions <> []
  /\ caption two_mentions = ("gg " ++ ("@" ++ "alice") ++ " @bob")%string
  /\ caption_entities two_mentions
     = [mkEntity "bold" 0 2] ++ first_mention :: [mkEntity "mention" 10 4]
  /\ Forall (fun e' => is_mention e' = false) [mkEntity "bold" 0 2]
  /\ is_mention first_mention = true
  /\ offset first_mention = Z.of_nat (String.length "gg ")
  /\ length first_mention = Z.of_nat (String.length ("@" ++ "alice"))
  /\ no_sigil "alice" = true
  /\ exists w,
       run_on (message_handler two_mentions) [("alice", 4)] = Ok (tt, w)
       /\ increments (trace w) = ["alice"]
       /\ count_of (db w) "alice" = count_of [("alice", 4)] "alice" + 1
       /\ replies (trace w)
          = [Reply ("Counted a Catan win for @" ++ "alice" ++ "!") None].
Proof.
  assert (Hp : photo two_mentions <> []) by (intros E; discriminate E).
  assert (Hpre : Forall (fun e' => is_mention e' = false)
                        [mkEntity "bold" 0 2]) by (repeat constructor).
  split; [exact Hp|]. split; [reflexivity|]. split; [reflexivity|].
  split; [exact Hpre|]. split; [reflexivity|]. split; [reflexivity|].
  split; [reflexivity|]. split; [reflexivity|].
  apply (X12_mention_of_a_name_counts_that_name two_mentions "gg " "alice"
           " @bob" [mkEntity "bold" 0 2] first_mention
           [mkEntity "mention" 10 4] [("alice", 4)]
           Hp eq_refl eq_refl Hpre eq_refl eq_refl eq_refl eq_refl).
Defined.

(** X13: when the first mention of a message with a photo starts at or
    behind the end of the caption, the handler counts a win for the empty
    identity and replies with an empty mention, whatever the length of the
    span and whatever follows. *)
Theorem X13_mention_beyond_caption_counts_empty_identity
        (m : message) (pre : list entity) (e : entity) (rest : list entity)
        (t : table) :
  photo m <> [] ->
  caption_entities m = pre ++ e :: rest ->
  Forall (fun e' => is_mention e' = false) pre ->
  is_mention e = true ->
  Z.of_nat (String.length (caption m)) <= offset e ->
  exists w,
    run_on (message_handler m) t = Ok (tt, w)
    /\ increments (trace w) = [""]
    /\ stored_wins (db w) "" = Some (count_of t "" + 1)
    /\ replies (trace w) = [Reply "Counted a Catan win for !" None].
Proof.
  intros Hphoto Hent Hpre He Hoff.
  destruct (message_handler_first_mention m pre e rest Hphoto Hent Hpre He t)
    as (db' & Hinc & Hrun).
  destruct (counted_trace_events m pre e) as (I & _ & R).
  assert (Htext : mention_text_of m e = "")
    by (unfold mention_text_of; now apply slice_beyond).
  assert (Hid : identity_of m e = "")
    by (unfold identity_of; now rewrite Htext).
  exists (mkWorld db' (counted_trace m pre e)).
  split; [exact Hrun|]. cbn [db trace].
  rewrite I, R, Htext, Hid. split; [reflexivity|]. split; [|reflexivity].
  rewrite Hid in Hinc. exact (stored_wins_incremented _ _ _ _ Hinc).
Qed.

Lemma X13_mention_beyond_caption_counts_empty_identity_witness :
  photo malformed_first <> []
  /\ caption_entities malformed_first
     = [] ++ beyond_caption :: [mkEntity "mention" 3 4]
  /\ Forall (fun e' => is_mention e' = false) []
  /\ is_mention beyond_caption = true
  /\ Z.of_nat (String.length (caption malformed_first))
     <= offset beyond_caption
  /\ exists w,
       run_on (message_handler malformed_first) [("", 6)] = Ok (tt, w)
       /\ increments (trace w) = [""]
       /\ stored_wins (db w) "" = Some (count_of [("", 6)] "" + 1)
       /\ replies (trace w) = [Reply "Counted a Catan win for !" None].
Proof.
  assert (Hp : photo malformed_first <> []) by (intros E; discriminate E).
  assert (Hoff : Z.of_nat (String.length (caption malformed_first))
                 <= offset beyond_caption) by (simpl; lia).
  split; [exact Hp|]. split; [reflexivity|]. split; [constructor|].
  split; [reflexivity|]. split; [exact Hoff|].
  apply (X13_mention_beyond_caption_counts_empty_identity malformed_first
           [] beyond_caption [mkEntity "mention" 3 4] [("", 6)]
           Hp eq_refl (Forall_nil _) eq_refl Hoff).
Defined.

(* ------------------------------------------------------------------ *)
(** ** The stats reply after a win, and the lines of the leaderboard *)

Section MoreRenderingFacts.

(** [stats_command] from any state of the store and after any events. *)
Lemma stats_command_step (w : world) :
  stats_command w
  = Ok (tt, mkWorld (db w)
              (trace w ++
               [StoreLeaderboard;
                match order_by_wins_desc (db w) with
                | [] => Reply no_wins_text None
                | _ :: _ =>
                    Reply (leaderboard_header ++ Py.newline
                           ++ Py.join Py.newline
                                (map leaderboard_line
                                     (order_by_wins_desc (db w))))
                          (Some "Markdown")
                end])).
Proof.
  unfold stats_command, bind, call_store. simpl.
  destruct (order_by_wins_desc (db w)); unfold emit; simpl;
    now rewrite <- app_assoc.
Qed.

Lemma digits_no_space (d : Decimal.uint) :
  Py.char_in " " (NilEmpty.string_of_uint d) = false.
Proof. induction d; simpl; auto. Qed.

Lemma str_of_int_no_space (n : Z) :
  Py.char_in " " (Py.str_of_int n) = false.
Proof.
  unfold Py.str_of_int, NilZero.string_of_int, NilZero.string_of_uint.
  destruct (Z.to_int n) as [d|d]; destruct d; simpl;
    auto using digits_no_space.
Qed.

(** The decimal rendering of a count reads back as that count. *)
Lemma str_of_int_reads_back (n : Z) :
  option_map Z.of_int (NilZero.int_of_string (Py.str_of_int n)) = Some n.
Proof.
  unfold Py.str_of_int. rewrite NilZero.isi.
  - simpl. now rewrite DecimalZ.of_to.
  - destruct n; simpl; [discriminate | |discriminate].
    intros H. injection H as H. now apply Unsigned.to_uint_nonnil in H.
  - destruct n; simpl; [discriminate | discriminate |].
    intros H. injection H as H. now apply Unsigned.to_uint_nonnil in H.
Qed.

Lemma str_of_int_injective (n k : Z) :
  Py.str_of_int n = Py.str_of_int k -> n = k.
Proof.
  intros H. pose proof (str_of_int_reads_back n) as Hn.
  rewrite H, str_of_int_reads_back in Hn. now injection Hn.
Qed.

Lemma no_space_no_separator (d u d' : string) :
  Py.char_in " " d = false -> d <> (u ++ ": " ++ d')%string.
Proof.
  intros H E. rewrite E, char_in_app in H.
  apply orb_false_elim in H as [_ H]. simpl in H. discriminate H.
Qed.

(** A text [u ++ ": " ++ d] with no space in [d] splits in one way only. *)
Lemma split_at_last_separator (u1 : string) :
  forall u2 d1 d2,
    Py.char_in " " d1 = false ->
    Py.char_in " " d2 = false ->
    (u1 ++ ": " ++ d1 = u2 ++ ": " ++ d2)%string ->
    u1 = u2 /\ d1 = d2.
Proof.
  induction u1 as [|c u1 IH]; intros u2 d1 d2 H1 H2 E.
  - destruct u2 as [|c2 u2]; [simpl in E; now injection E|].
    exfalso. simpl in E. injection E as _ E.
    destruct u2 as [|c3 u2]; [discriminate E|].
    simpl in E. injection E as _ E.
    exact (no_space_no_separator d1 u2 d2 H1 E).
  - destruct u2 as [|c2 u2].
    + exfalso. simpl in E. injection E as _ E.
      destruct u1 as [|c3 u1]; [discriminate E|].
      simpl in E. injection E as _ E.
      exact (no_space_no_separator d2 u1 d1 H2 (eq_sym E)).
    + simpl in E. injection E as -> E.
      destruct (IH u2 d1 d2 H1 H2 E) as [-> ->]. now split.
Qed.

Lemma leaderboard_line_injective (r1 r2 : row) :
  leaderboard_line r1 = leaderboard_line r2 -> r1 = r2.
Proof.
  destruct r1 as [u1 n1], r2 as [u2 n2]. unfold leaderboard_line. simpl.
  intros E. injection E as E.
  destruct (split_at_last_separator u1 u2 _ _ (str_of_int_no_space n1)
              (str_of_int_no_space n2) E) as [-> Hn].
  now rewrite (str_of_int_injective _ _ Hn).
Qed.

End MoreRenderingFacts.

(** X14: the stats reply right after a win report shows the winner: when
    [detect] finds an identity in a message, handling the message and then
    the stats command sends two replies, the second of which is the
    leaderboard (never the text for an empty tally) and has a row for that
    identity with its count before plus one. *)
Theorem X14_stats_after_a_win_shows_the_winner (m : message) (u : string)
        (t : table) :
  detect m = Some u ->
  exists w confirmation rows,
    run_on (message_handler m ;; stats_command)%run t = Ok (tt, w)
    /\ get_leaderboard (db w) = Ok (rows, db w)
    /\ In (u, count_of t u + 1) rows
    /\ replies (trace w)
       = [confirmation;
          Reply (leaderboard_header ++ Py.newline
                 ++ Py.join Py.newline (map leaderboard_line rows))
                (Some "Markdown")].
Proof.
  intros Hd.
  destruct (message_handler_step m (mkWorld t [])) as (w1 & H1 & Hstep).
  rewrite Hd in Hstep. destruct Hstep as (Hinc & _ & _ & text & R1).
  cbn [db trace] in Hinc, R1.
  assert (Hin : In (u, count_of t u + 1) (order_by_wins_desc (db w1))).
  { apply (Permutation_in _ (Permutation_sym (order_by_wins_desc_perm _))).
    apply stored_wins_in. exact (stored_wins_incremented _ _ _ _ Hinc). }
  eexists _, (Reply text None), (order_by_wins_desc (db w1)).
  unfold run_on, bind. rewrite H1, stats_command_step.
  split; [reflexivity|]. cbn [db trace].
  split; [reflexivity|]. split; [exact Hin|].
  rewrite replies_app, R1.
  destruct (order_by_wins_desc (db w1)); [contradiction | reflexivity].
Qed.

Lemma X14_stats_after_a_win_shows_the_winner_witness :
  detect two_mentions = Some "alice"
  /\ exists w confirmation rows,
       run_on (message_handler two_mentions ;; stats_command)%run
              [("bob", 2); ("alice", 2)] = Ok (tt, w)
       /\ get_leaderboard (db w) = Ok (rows, db w)
       /\ In ("alice", count_of [("bob", 2); ("alice", 2)] "alice" + 1) rows
       /\ replies (trace w)
          = [confirmation;
             Reply (leaderboard_header ++ Py.newline
                    ++ Py.join Py.newline (map leaderboard_line rows))
                   (Some "Markdown")].
Proof.
  split; [reflexivity|].
  apply (X14_stats_after_a_win_shows_the_winner two_mentions "alice"
           [("bob", 2); ("alice", 2)] eq_refl).
Defined.

(** X15: the lines of the leaderboard are unambiguous: two rows that differ
    in identity or in count never render to the same line, whatever
    characters the identities contain. *)
Theorem X15_leaderboard_lines_tell_rows_apart (r1 r2 : row) :
  leaderboard_line r1 = leaderboard_line r2 -> r1 = r2.
Proof. apply leaderboard_line_injective. Qed.

Lemma X15_leaderboard_lines_tell_rows_apart_witness :
  leaderboard_line ("a: 1", 2) = leaderboard_line ("a: 1", 2)
  /\ ("a: 1", 2) = (("a: 1", 2) : row).
Proof.
  split; [reflexivity|].
  apply (X15_leaderboard_lines_tell_rows_apart ("a: 1", 2) ("a: 1", 2)
           eq_refl).
Defined.

(* ------------------------------------------------------------------ *)
(** ** Start-up and the commands *)


(** X17: the two commands never change the tally.  From any state of the
    store and after any events, [start_command] sends its greeting without
    touching the store, and [stats_command] sends one reply after reading
    the leaderboard; both leave every row of the table as it is. *)
Theorem X17_commands_leave_the_tally (w : world) :
  exists w1 w2 text mode,
    start_command w = Ok (tt, w1)
    /\ db w1 = db w
    /\ store_accesses (trace w1) = store_accesses (trace w)
    /\ replies (trace w1)
       = replies (trace w)
         ++ [Reply "Hello! I will track who wins Catan in this chat." None]
    /\ stats_command w = Ok (tt, w2)
    /\ db w2 = db w
    /\ store_accesses (trace w2) = store_accesses (trace w) ++ [StoreLeaderboard]
    /\ increments (trace w2) = increments (trace w)
    /\ replies (trace w2) = replies (trace w) ++ [Reply text mode].
Proof.
  destruct (order_by_wins_desc (db w)) as [|r rows] eqn:E.
  - eexists _, _, no_wins_text, None.
    split; [reflexivity|]. cbn [db trace].
    rewrite store_accesses_app, replies_app. simpl.
    rewrite app_nil_r. do 3 (split; [reflexivity|]).
    rewrite stats_command_step, E. split; [reflexivity|]. cbn [db trace].
    rewrite store_accesses_app, replies_app, increments_app. simpl.
    rewrite app_nil_r. repeat split.
  - eexists _, _, _, (Some "Markdown").
    split; [reflexivity|]. cbn [db trace].
    rewrite store_accesses_app, replies_app. simpl.
    rewrite app_nil_r. do 3 (split; [reflexivity|]).
    rewrite stats_command_step, E. split; [reflexivity|]. cbn [db trace].
    rewrite store_accesses_app, replies_app, increments_app. simpl.
    rewrite app_nil_r. repeat split.
Qed.
